(** * wg-quick for Android: the interface lifecycle, verified

    A shallow embedding of [wg-quick.c], the "shell script written in C"
    that brings a WireGuard interface up and down on Android by calling
    ip(8), wg(8) and ndc.

    Conventions of the embedding.
    - C strings are [string]s; they are taken to hold no NUL byte.
    - [int] and [unsigned int] are 32 bits wide, [long] is 64 bits wide;
      they are modelled in [Z], the conversions between them written out
      ([to_uint], [to_int]).
    - The outside world (the commands the program runs, the random source)
      is an oracle; every call the program makes is recorded in a trace.
    - [printf]-style formatting is string concatenation, [%u], [%d] and
      [%lu] print decimal numerals.
    - The calls of [regcomp] use fixed patterns (one of them extended by an
      interface name) and do not fail; [malloc] and [strdup] do not fail;
      [errno] is clear when [getline] reaches the end of a stream.
    - The status of a process is the value it gives to [exit]; a process
      that a signal ends gives none, and runs no exit handler.  The one
      signal of the embedding is raised by the write to the pipe of
      [wg setconf]; standard output and standard error are taken to be
      writable. *)

From Stdlib Require Import ZArith List String Ascii Bool Lia DecimalString.
Import ListNotations.

Open Scope string_scope.
Open Scope Z_scope.

(* ================================================================== *)
(** * Characters and strings as libc sees them *)
(* ================================================================== *)

Module CStr.

(** [isdigit], [isspace] and [tolower] in the C locale. *)
Definition isdigit (c : ascii) : bool :=
  let n := nat_of_ascii c in (48 <=? n)%nat && (n <=? 57)%nat.

Definition isspace (c : ascii) : bool :=
  let n := nat_of_ascii c in
  (n =? 32)%nat || ((9 <=? n)%nat && (n <=? 13)%nat).

Definition isupper (c : ascii) : bool :=
  let n := nat_of_ascii c in (65 <=? n)%nat && (n <=? 90)%nat.

Definition islower (c : ascii) : bool :=
  let n := nat_of_ascii c in (97 <=? n)%nat && (n <=? 122)%nat.

Definition tolower (c : ascii) : ascii :=
  if isupper c then ascii_of_nat (nat_of_ascii c + 32) else c.

Definition newline : ascii := "010"%char.
Definition tab : ascii := "009"%char.

(** Membership of a character in a set given as a string ([strchr] with the
    roles swapped, as [strtok] uses its delimiters). *)
Fixpoint mem (c : ascii) (set : string) : bool :=
  match set with
  | EmptyString => false
  | String d r => Ascii.eqb c d || mem c r
  end.

(** [strchr s c <> NULL]. *)
Definition has_char (s : string) (c : ascii) : bool := mem c s.

(** A character [strtok] does not take for a delimiter. *)
Definition non_delim (delims : string) (c : ascii) : bool :=
  negb (mem c delims).

Fixpoint take (n : nat) (s : string) : string :=
  match n, s with
  | S n', String c r => String c (take n' r)
  | _, _ => EmptyString
  end.

Fixpoint drop (n : nat) (s : string) : string :=
  match n, s with
  | S n', String _ r => drop n' r
  | _, _ => s
  end.

Fixpoint take_while (p : ascii -> bool) (s : string) : string :=
  match s with
  | String c r => if p c then String c (take_while p r) else EmptyString
  | EmptyString => EmptyString
  end.

Fixpoint drop_while (p : ascii -> bool) (s : string) : string :=
  match s with
  | String c r => if p c then drop_while p r else s
  | EmptyString => EmptyString
  end.

Fixpoint all (p : ascii -> bool) (s : string) : bool :=
  match s with
  | String c r => p c && all p r
  | EmptyString => true
  end.

Fixpoint map (f : ascii -> ascii) (s : string) : string :=
  match s with
  | String c r => String (f c) (map f r)
  | EmptyString => EmptyString
  end.

Fixpoint filter (p : ascii -> bool) (s : string) : string :=
  match s with
  | String c r => if p c then String c (filter p r) else filter p r
  | EmptyString => EmptyString
  end.

Definition is_empty (s : string) : bool :=
  match s with EmptyString => true | _ => false end.

(** [strip_prefix p s] is the rest of [s] after [p] when [s] starts with
    [p]. *)
Fixpoint strip_prefix (p s : string) : option string :=
  match p, s with
  | EmptyString, _ => Some s
  | String a p', String b s' =>
      if Ascii.eqb a b then strip_prefix p' s' else None
  | String _ _, EmptyString => None
  end.

(** [strstr s p <> NULL]. *)
Fixpoint strstr (s p : string) : bool :=
  match strip_prefix p s with
  | Some _ => true
  | None => match s with
            | String _ r => strstr r p
            | EmptyString => false
            end
  end.

(** All the tokens the loop
    [for (t = strtok(s, d); t; t = strtok(NULL, d))] visits: the maximal
    runs of characters of [s] that are not in [d]. *)
Fixpoint strtok_all (delims : string) (s : string) : list string :=
  match s with
  | EmptyString => []
  | String c r =>
      let ts := strtok_all delims r in
      if mem c delims then ts
      else match r with
           | EmptyString => [String c EmptyString]
           | String c' _ =>
               if mem c' delims then String c EmptyString :: ts
               else match ts with
                    | t :: ts' => String c t :: ts'
                    | [] => [String c EmptyString]
                    end
           end
  end.

(** The lines [getline] returns one after the other from a stream holding
    [s]: each line keeps its newline, the last one may lack it. *)
Fixpoint getlines (s : string) : list string :=
  match s with
  | EmptyString => []
  | String c r =>
      if Ascii.eqb c newline then String c EmptyString :: getlines r
      else match getlines r with
           | l :: ls => String c l :: ls
           | [] => [String c EmptyString]
           end
  end.

(** Value of a run of decimal digits. *)
Definition digit_val (c : ascii) : Z := Z.of_nat (nat_of_ascii c) - 48.

Fixpoint digits_val (acc : Z) (s : string) : Z :=
  match s with
  | String c r => digits_val (10 * acc + digit_val c) r
  | EmptyString => acc
  end.

(** The two 32-bit conversions. *)
Definition to_uint (z : Z) : Z := z mod 4294967296.
Definition to_int (z : Z) : Z := (z + 2147483648) mod 4294967296 - 2147483648.

(** [strtol(s, NULL, 10)] with a [long] of 64 bits: leading white space,
    an optional sign, then digits; a number that does not fit is replaced
    by [LONG_MAX] or [LONG_MIN]. *)
Definition LONG_MAX : Z := 9223372036854775807.
Definition LONG_MIN : Z := -9223372036854775808.

Definition strtol (s : string) : Z :=
  let s1 := drop_while isspace s in
  let v :=
    match s1 with
    | String "-" r => - digits_val 0 (take_while isdigit r)
    | String "+" r => digits_val 0 (take_while isdigit r)
    | _ => digits_val 0 (take_while isdigit s1)
    end in
  Z.max LONG_MIN (Z.min LONG_MAX v).

(** [atoi]: the C library computes it as [(int) strtol(s, NULL, 10)], so a
    number beyond [int] wraps around, and one beyond [long] gives -1 or
    0. *)
Definition atoi (s : string) : Z := to_int (strtol s).

(** Lower-case hexadecimal digits, as the pattern [[0-9a-f]] has them. *)
Definition ishex (c : ascii) : bool :=
  isdigit c ||
  (let n := nat_of_ascii c in (97 <=? n)%nat && (n <=? 102)%nat).

Definition hex_val (c : ascii) : Z :=
  if isdigit c then digit_val c else Z.of_nat (nat_of_ascii c) - 87.

Fixpoint hexs_val (acc : Z) (s : string) : Z :=
  match s with
  | String c r => hexs_val (16 * acc + hex_val c) r
  | EmptyString => acc
  end.

(** [%d] and [%u]/[%lu]. *)
Definition fmt_d (z : Z) : string := NilZero.string_of_int (Z.to_int z).
Definition fmt_u (z : Z) : string :=
  NilZero.string_of_uint (N.to_uint (Z.to_N z)).

End CStr.

(* ================================================================== *)
(** * The network id loop of [up_if] *)
(* ================================================================== *)

(** [random() & 0xfffe]. *)
Definition mask_netid (r : Z) : Z := Z.land r 65534.

(** [while ( *netid < 4096) *netid = random() & 0xfffe;]
    [rnd i] is the value of the [i]-th call of [random()]; [fuel] bounds the
    number of iterations, [None] means the loop is still running when the
    fuel is spent. *)
Fixpoint netid_loop (rnd : nat -> Z) (fuel : nat) (i : nat) (netid : Z)
  : option Z :=
  if netid <? 4096 then
    match fuel with
    | O => None
    | S fuel' => netid_loop rnd fuel' (S i) (mask_netid (rnd i))
    end
  else Some netid.

(** [cmd_up] starts the loop from [netid = 0]. *)
Definition alloc_netid (rnd : nat -> Z) (fuel : nat) : option Z :=
  netid_loop rnd fuel 0 0.

(* ================================================================== *)
(** * The regular expressions of the program *)
(* ================================================================== *)

(** [regexec] without [REG_NEWLINE] and without [REG_NOTBOL]: the match
    starts at the leftmost position where one exists.  Each pattern of the
    program is embedded as the function that returns the text of its group
    1, which is all the callers read. *)
Module Rx.
Import CStr.

(** Leftmost position at which [f] matches. *)
Fixpoint search {A : Type} (f : string -> option A) (s : string) : option A :=
  match f s with
  | Some a => Some a
  | None => match s with
            | String _ r => search f r
            | EmptyString => None
            end
  end.

(** A literal followed by a group [(class+)]: the group takes the longest
    run of the class. *)
Definition lit_then_run (lit : string) (class : ascii -> bool) (s : string)
  : option string :=
  match strip_prefix lit s with
  | Some rest =>
      let g := take_while class rest in
      if is_empty g then None else Some g
  | None => None
  end.

(** ["mtu ([0-9]+)"] *)
Definition regex_mtu (s : string) : option string :=
  search (lit_then_run "mtu " isdigit) s.

(** ["dev ([^ ]+)"] *)
Definition regex_dev (s : string) : option string :=
  search (lit_then_run "dev " (fun c => negb (Ascii.eqb c " "))) s.

(** [[a-z0-9:.]] *)
Definition endpoint_char (c : ascii) : bool :=
  islower c || isdigit c || Ascii.eqb c ":" || Ascii.eqb c ".".

(** Split at the last occurrence of [c0]. *)
Fixpoint rsplit (c0 : ascii) (s : string) : option (string * string) :=
  match s with
  | EmptyString => None
  | String c r =>
      match rsplit c0 r with
      | Some (a, d) => Some (String c a, d)
      | None => if Ascii.eqb c c0 then Some (EmptyString, r) else None
      end
  end.

(** Remove one trailing [c0]. *)
Fixpoint chop_last (c0 : ascii) (s : string) : string :=
  match s with
  | EmptyString => EmptyString
  | String c EmptyString => if Ascii.eqb c c0 then EmptyString else s
  | String c r => String c (chop_last c0 r)
  end.

(** ["^\\[?([a-z0-9:.]+)\\]?:[0-9]+$"].  The pattern is anchored at both
    ends of the whole string.  The port is what follows the last colon (a
    port holds no colon), an opening bracket can only be matched by the
    optional bracket of the pattern, and so can a closing one before the
    last colon: the group is determined. *)
Definition regex_endpoint (s : string) : option string :=
  let s1 := match s with
            | String "[" r => r
            | _ => s
            end in
  match rsplit ":" s1 with
  | Some (a, port) =>
      let g := chop_last "]" a in
      if negb (is_empty port) && all isdigit port &&
         negb (is_empty g) && all endpoint_char g
      then Some g else None
  | None => None
  end.

(** The pattern of [del_if] ends with the interface name, which [regcomp]
    reads as a pattern too.  Of the characters an interface name may hold
    ([regex_iface] below), ['.'] stands for any character and ['+'] repeats
    what is before it; the others stand for themselves. *)
Inductive atom : Type :=
| Lit (c : ascii)
| AnyChar.

Definition atom_matches (a : atom) (c : ascii) : bool :=
  match a with
  | Lit d => Ascii.eqb c d
  | AnyChar => true
  end.

(** One item is an atom, repeated or not.  (A doubled ['+'] repeats a
    repetition, which matches what the single one does.) *)
Definition item : Type := (atom * bool)%type.

Definition add_char (acc : list item) (c : ascii) : list item :=
  if Ascii.eqb c "+" then
    match acc with
    | (a, _) :: t => (a, true) :: t
    | [] => [(Lit c, false)]
    end
  else ((if Ascii.eqb c "." then AnyChar else Lit c), false) :: acc.

Fixpoint add_chars (acc : list item) (s : string) : list item :=
  match s with
  | EmptyString => acc
  | String c r => add_chars (add_char acc c) r
  end.

(** The items of a pattern text, in order. *)
Definition items_of (pat : string) : list item := rev (add_chars [] pat).

(** Does a prefix of [s] match the items? *)
Fixpoint match_items (its : list item) (s : string) : bool :=
  match its with
  | [] => true
  | (a, false) :: rest =>
      match s with
      | String c s' => atom_matches a c && match_items rest s'
      | EmptyString => false
      end
  | (a, true) :: rest =>
      (fix more (s : string) : bool :=
         match s with
         | String c s' =>
             atom_matches a c && (match_items rest s' || more s')
         | EmptyString => false
         end) s
  end.

(** ["0xc([0-9a-f]+)/0xcffff lookup " ++ iface] at the start of [s].  The
    character after the group is ['/'], which is no hexadecimal digit, so
    the group is the whole run of digits. *)
Definition rule_at (iface : string) (s : string) : option string :=
  match strip_prefix "0xc" s with
  | Some rest =>
      let g := take_while ishex rest in
      if is_empty g then None
      else match strip_prefix "/0xcffff lookup" (drop_while ishex rest) with
           | Some tail =>
               if match_items (items_of (String " " iface)) tail
               then Some g else None
           | None => None
           end
  | None => None
  end.

Definition regex_rule (iface : string) (s : string) : option string :=
  search (rule_at iface) s.

(** [[a-zA-Z0-9_=+.-]] *)
Definition iface_char (c : ascii) : bool :=
  islower c || isupper c || isdigit c || mem c "_=+.-".

(** ["^[a-zA-Z0-9_=+.-]{1,16}$"], the shape of every interface name
    [parse_options] lets through. *)
Definition regex_iface (s : string) : bool :=
  negb (is_empty s) && (String.length s <=? 16)%nat && all iface_char s.

End Rx.

(* ================================================================== *)
(** * The process and the world around it *)
(* ================================================================== *)

(** What the program does to the outside, in the order it does it. *)
Inductive event : Type :=
| Stdout (text : string)
| Stderr (text : string)
| Perror (prefix : string)
| System (command : string)                 (* system(command) *)
| PopenR (command : string)                 (* popen(command, "r") *)
| PopenW (command : string)                 (* popen(command, "w") *)
| Fputs (command : string) (text : string). (* fputs(text, pipe) *)

(** What a command does when it is run: it cannot be started ([errno] is
    set), or it runs, prints [output] and ends with [status] (as [system]
    and [pclose] report it). *)
Inductive outcome : Type :=
| SpawnFailed (errno : Z)
| Spawned (status : Z) (output : string).

(** The world.  [run h c] is what running [c] does after the calls [h];
    [write_errno h c text] is the error, if any, that [fputs] reports when
    it writes [text] to the pipe of [c]; [write_signal h c text] is the
    signal, if any, raised while [text] is written to that pipe by [fputs]
    or flushed by [pclose] ([SIGPIPE] when the command has gone: the program
    leaves its disposition as it finds it); [rnd i] is the [i]-th value of
    [random()] after the seeding of [up_if]; the last two are constants of
    the C library.  Standard output and standard error are taken to be
    writable. *)
Record world : Type := {
  run : list event -> string -> outcome;
  write_errno : list event -> string -> string -> option Z;
  write_signal : list event -> string -> string -> option Z;
  rnd : nat -> Z;
  E2BIG : Z;
  ULONG_MAX : Z
}.

(** The globals of the program, the trace, and whether [atexit] has
    registered [cmd_up_cleanup]. *)
Record pstate : Type := {
  trace : list event;
  cleanup_iface : option string;
  is_exiting : bool;
  atexit_cleanup : bool
}.

Definition initial : pstate :=
  {| trace := []; cleanup_iface := None; is_exiting := false;
     atexit_cleanup := false |}.

(** A piece of the program returns, or calls [exit], or never leaves the
    loop of [up_if], or is ended by a signal. *)
Inductive res (A : Type) : Type :=
| Ret (a : A) (s : pstate)
| Exit (code : Z) (s : pstate)
| Spin (s : pstate)
| Kill (signal : Z) (s : pstate).
Arguments Ret {A} a s.
Arguments Exit {A} code s.
Arguments Spin {A} s.
Arguments Kill {A} signal s.

Definition M (A : Type) : Type := pstate -> res A.

Definition ret {A : Type} (a : A) : M A := fun s => Ret a s.

Definition bind {A B : Type} (m : M A) (k : A -> M B) : M B :=
  fun s => match m s with
           | Ret a s' => k a s'
           | Exit c s' => Exit c s'
           | Spin s' => Spin s'
           | Kill sig s' => Kill sig s'
           end.

Declare Scope proc_scope.
Delimit Scope proc_scope with proc.
Notation "x <- m ;; k" := (bind m (fun x => k))
  (at level 61, m at next level, right associativity) : proc_scope.
Notation "m ;; k" := (bind m (fun _ => k))
  (at level 61, right associativity) : proc_scope.
Open Scope proc_scope.

Definition exit {A : Type} (code : Z) : M A := fun s => Exit code s.

Definition spin {A : Type} : M A := fun s => Spin s.

Definition kill {A : Type} (signal : Z) : M A := fun s => Kill signal s.

(** The state after some more events. *)
Definition push (s : pstate) (evs : list event) : pstate :=
  {| trace := trace s ++ evs;
     cleanup_iface := cleanup_iface s;
     is_exiting := is_exiting s;
     atexit_cleanup := atexit_cleanup s |}.

Definition log (e : event) : M unit := fun s => Ret tt (push s [e]).

Definition get_trace : M (list event) := fun s => Ret (trace s) s.
Definition get_is_exiting : M bool := fun s => Ret (is_exiting s) s.
Definition get_cleanup_iface : M (option string) :=
  fun s => Ret (cleanup_iface s) s.

Definition set_cleanup_iface (i : option string) : M unit :=
  fun s => Ret tt {| trace := trace s; cleanup_iface := i;
                     is_exiting := is_exiting s;
                     atexit_cleanup := atexit_cleanup s |}.

Definition set_is_exiting (b : bool) : M unit :=
  fun s => Ret tt {| trace := trace s; cleanup_iface := cleanup_iface s;
                     is_exiting := b;
                     atexit_cleanup := atexit_cleanup s |}.

(** [atexit(cmd_up_cleanup)] *)
Definition atexit_cmd_up_cleanup : M unit :=
  fun s => Ret tt {| trace := trace s; cleanup_iface := cleanup_iface s;
                     is_exiting := is_exiting s;
                     atexit_cleanup := true |}.

(** A loop over a list that threads the process state. *)
Fixpoint for_each {A : Type} (f : A -> M unit) (l : list A) : M unit :=
  match l with
  | [] => ret tt
  | a :: r => f a ;; for_each f r
  end.

Fixpoint fold_m {A B : Type} (f : B -> A -> M B) (l : list A) (b : B) : M B :=
  match l with
  | [] => ret b
  | a :: r => b' <- f b a ;; fold_m f r b'
  end.

(* ================================================================== *)
(** * The program *)
(* ================================================================== *)

Definition nl : string := String CStr.newline EmptyString.

Section Program.
Import CStr.
Import Rx.

Variable w : world.

(** [vsnprintf(cmd, sizeof(cmd), ...) >= sizeof(cmd)] with
    [char cmd[8192]]. *)
Definition too_long (c : string) : bool :=
  8192 <=? Z.of_nat (String.length c).

Definition fail_too_long {A : Type} : M A :=
  log (Perror "Error: vsnprintf") ;; exit (E2BIG w).

(** What [system(c)] returns after the calls [h]: the status of the
    command, or -1 when it cannot be started. *)
Definition system_status (h : list event) (c : string) : Z :=
  match run w h c with
  | Spawned status _ => status
  | SpawnFailed _ => -1
  end.

Definition system (c : string) : M Z :=
  h <- get_trace ;;
  log (System c) ;;
  ret (system_status h c).

Definition cmd (c : string) : M unit :=
  if too_long c then fail_too_long
  else
    log (Stdout ("[#] " ++ c ++ nl)) ;;
    r <- system c ;;
    exiting <- get_is_exiting ;;
    if negb (r =? 0) && negb exiting then exit r else ret tt.

(** [cmd_ret(&c, fmt, ...)] followed by [cmd_ret(&c, NULL)] until the end:
    the lines of the output of the command.  The first call returns the
    head of the list ([NULL] when the list is empty), each further call the
    next line.  The status of the command is never read. *)
Definition cmd_ret (c : string) : M (list string) :=
  if too_long c then fail_too_long
  else
    h <- get_trace ;;
    log (PopenR c) ;;
    match run w h c with
    | SpawnFailed errno => log (Perror "Error: popen") ;; exit errno
    | Spawned _ output => ret (getlines output)
    end.

Definition cndc (c : string) : M unit :=
  let ndc := "ndc " ++ c in
  log (Stdout ("[#] " ++ ndc ++ nl)) ;;
  lines <- cmd_ret ndc ;;
  match lines with
  | [] => exit 29
  | r :: _ =>
      if strstr r "200 0" then ret tt
      else log (Stderr ("Error: " ++ r ++ nl)) ;; exit 29
  end.

Definition add_if (iface : string) : M unit :=
  cmd ("ip link add " ++ iface ++ " type wireguard").

(** The first line of [lines] the rule pattern matches, as its group. *)
Fixpoint first_rule (iface : string) (lines : list string) : option string :=
  match lines with
  | [] => None
  | l :: r => match regex_rule iface l with
              | Some netid => Some netid
              | None => first_rule iface r
              end
  end.

(** [strtoul(s, NULL, 16)] on a run of hexadecimal digits. *)
Definition strtoul16 (s : string) : Z := Z.min (hexs_val 0 s) (ULONG_MAX w).

Definition del_if (iface : string) : M unit :=
  cmd ("ip link del " ++ iface) ;;
  lines <- cmd_ret "ip rule show" ;;
  match first_rule iface lines with
  | Some netid => cndc ("network destroy " ++ fmt_u (strtoul16 netid))
  | None => ret tt
  end.

(** [netid] is the value [*netid] has at the call; the result is the value
    it has at the return. *)
Definition up_if (fuel : nat) (netid : Z) (iface : string) : M Z :=
  match netid_loop (rnd w) fuel 0 netid with
  | None => spin
  | Some id =>
      cmd ("wg set " ++ iface ++ " fwmark 0x20000") ;;
      cndc ("interface setcfg " ++ iface ++ " up") ;;
      cndc ("network create " ++ fmt_u id ++ " vpn 1 1") ;;
      cndc ("network interface add " ++ fmt_u id ++ " " ++ iface) ;;
      cndc ("network users add " ++ fmt_u id ++ " 0-99999") ;;
      ret id
  end.

(** [strchr(s, '\'') || strchr(s, '\\')] *)
Definition has_quote_or_backslash (s : string) : bool :=
  has_char s "'" || has_char s "\".

(** The delimiters [", \t\n"] of the address and DNS lists. *)
Definition list_delims : string :=
  String "," (String " " (String tab (String newline EmptyString))).

(** One turn of the loop of [set_dnses]: [snprintf] writes at most
    [len + 2] characters into [arg], [strncat] appends at most
    [len * 4 - 1] of them. *)
Definition dns_step (len : nat) (arglist dns : string) : string :=
  if has_quote_or_backslash dns then arglist
  else
    let arg := take (len + 2) ("'" ++ dns ++ "' ") in
    arglist ++ take (len * 4 - 1) arg.

Definition set_dnses (netid : Z) (dnses : string) : M unit :=
  let len := String.length dnses in
  if (len =? 0)%nat then ret tt
  else
    let arglist :=
      fold_left (dns_step len) (strtok_all list_delims dnses) EmptyString in
    if (String.length arglist =? 0)%nat then ret tt
    else cndc ("resolver setnetdns " ++ fmt_u netid ++ " '' " ++ arglist).

Definition not_slash (c : ascii) : bool := negb (Ascii.eqb c "/").

Definition add_addr (iface addr : string) : M unit :=
  if has_char addr ":" then
    cndc ("interface ipv6 " ++ iface ++ " enable") ;;
    cmd ("ip -6 addr add '" ++ addr ++ "' dev " ++ iface)
  else
    let host := take_while not_slash addr in
    let mask :=
      if has_char addr "/"
      then atoi (drop 1 (drop_while not_slash addr)) mod 256
      else 32 in
    cndc ("interface setcfg " ++ iface ++ " '" ++ host ++ "' " ++ fmt_u mask).

Definition set_addr (iface addrs : string) : M unit :=
  for_each
    (fun addr =>
       if has_quote_or_backslash addr then ret tt else add_addr iface addr)
    (strtok_all list_delims addrs).

(** The result is an [int]: -1, or what [atoi] reads in a run of digits. *)
Definition get_route_mtu (endpoint : string) : M Z :=
  lines <- (if String.eqb endpoint "default"
            then cmd_ret ("ip -o route show " ++ endpoint)
            else cmd_ret ("ip -o route get " ++ endpoint)) ;;
  match lines with
  | [] => ret (-1)
  | route :: _ =>
      match regex_mtu route with
      | Some mtu => ret (atoi mtu)
      | None =>
          match regex_dev route with
          | Some dev =>
              lines' <- cmd_ret ("ip -o link show dev " ++ dev) ;;
              match lines' with
              | [] => ret (-1)
              | route' :: _ =>
                  match regex_mtu route' with
                  | Some mtu => ret (atoi mtu)
                  | None => ret (-1)
                  end
              end
          | None => ret (-1)
          end
      end
  end.

(** One turn of the loop of [set_mtu]; [next_mtu] is an [unsigned int], so
    the comparison with the [int] [endpoint_mtu] is unsigned. *)
Definition mtu_step (endpoint_mtu : Z) (line : string) : M Z :=
  match regex_endpoint line with
  | None => ret endpoint_mtu
  | Some endpoint =>
      m <- get_route_mtu endpoint ;;
      let next_mtu := to_uint m in
      if (0 <? next_mtu) && (next_mtu <? to_uint endpoint_mtu)
      then ret (to_int next_mtu)
      else ret endpoint_mtu
  end.

(** [endpoint_mtu - 80] is a subtraction of [int]s: it wraps around where
    the number does not fit (C leaves that case undefined). *)
Definition set_mtu (iface : string) (mtu : Z) : M unit :=
  if negb (mtu =? 0) then
    cndc ("interface setmtu " ++ iface ++ " " ++ fmt_u mtu)
  else
    m0 <- get_route_mtu "default" ;;
    let endpoint_mtu := if m0 =? -1 then 1500 else m0 in
    lines <- cmd_ret ("wg show " ++ iface ++ " endpoints") ;;
    endpoint_mtu' <- fold_m mtu_step lines endpoint_mtu ;;
    cndc ("interface setmtu " ++ iface ++ " " ++
          fmt_d (to_int (endpoint_mtu' - 80))).

Definition add_route (iface : string) (netid : Z) (route : string) : M unit :=
  cndc ("network route add " ++ fmt_u netid ++ " " ++ iface ++ " " ++ route).

Definition not_tab (c : ascii) : bool := negb (Ascii.eqb c tab).

Definition set_routes (iface : string) (netid : Z) : M unit :=
  lines <- cmd_ret ("wg show " ++ iface ++ " allowed-ips") ;;
  for_each
    (fun allowedips =>
       if has_char allowedips tab then
         for_each (add_route iface netid)
           (strtok_all (String " " nl) (drop 1 (drop_while not_tab allowedips)))
       else ret tt)
    lines.

(** [fputs] hands the configuration to the pipe and [pclose] flushes it:
    a signal raised by the write ends the process there.  What [pclose]
    returns, the status of [wg setconf], is not read. *)
Definition set_config (iface config : string) : M unit :=
  let c := "wg setconf " ++ iface ++ " /proc/self/fd/0" in
  log (Stdout ("[#] " ++ c ++ nl)) ;;
  h <- get_trace ;;
  log (PopenW c) ;;
  match run w h c with
  | SpawnFailed errno => log (Perror "Error: popen") ;; exit errno
  | Spawned _ _ =>
      h' <- get_trace ;;
      log (Fputs c config) ;;
      match write_signal w h' c config with
      | Some signal => kill signal
      | None =>
          match write_errno w h' c config with
          | Some errno => log (Perror "Error: fputs") ;; exit errno
          | None => ret tt
          end
      end
  end.

Definition cmd_up_cleanup : M unit :=
  set_is_exiting true ;;
  i <- get_cleanup_iface ;;
  match i with
  | Some iface => del_if iface
  | None => ret tt
  end.

(** What [cmd_up] does between the registration of the exit handler and
    the reset of [cleanup_iface]. *)
Definition cmd_up_work (fuel : nat) (iface config : string) (mtu : Z)
           (addrs dnses : string) : M unit :=
  add_if iface ;;
  set_config iface config ;;
  set_mtu iface mtu ;;
  set_addr iface addrs ;;
  netid <- up_if fuel 0 iface ;;
  set_dnses netid dnses ;;
  set_routes iface netid.

Definition cmd_up (fuel : nat) (iface config : string) (mtu : Z)
           (addrs dnses : string) : M unit :=
  lines <- cmd_ret ("ip link show dev " ++ iface ++ " 2>/dev/null") ;;
  match lines with
  | _ :: _ =>
      log (Stderr ("Error: " ++ iface ++ " already exists" ++ nl)) ;;
      exit 92
  | [] =>
      set_cleanup_iface (Some iface) ;;
      atexit_cmd_up_cleanup ;;
      cmd_up_work fuel iface config mtu addrs dnses ;;
      set_cleanup_iface None ;;
      exit 0
  end.

Definition cmd_down (iface : string) : M unit :=
  lines <- cmd_ret "wg show interfaces" ;;
  let found :=
    match lines with
    | [] => false
    | ifaces :: _ =>
        existsb (String.eqb iface) (strtok_all (String " " nl) ifaces)
    end in
  if negb found then
    log (Stderr ("Error: " ++ iface ++ " is not a WireGuard interface" ++ nl)) ;;
    exit 43
  else
    del_if iface ;;
    exit 0.

(** How the process ends: with the status given to [exit], once the exit
    handler has run if one is registered, or never, or by a signal, which
    runs no exit handler.  ([exit] called by the handler itself ends the
    process with the new status: no handler is left to run.) *)
Inductive ending : Type :=
| Ended (status : Z) (s : pstate)
| Hangs (s : pstate)
| Killed (signal : Z) (s : pstate).

Definition at_exit (status : Z) (s : pstate) : ending :=
  if atexit_cleanup s then
    match cmd_up_cleanup s with
    | Ret _ s' => Ended status s'
    | Exit status' s' => Ended status' s'
    | Spin s' => Hangs s'
    | Kill signal s' => Killed signal s'
    end
  else Ended status s.

Definition run_process (m : M unit) (s : pstate) : ending :=
  match m s with
  | Ret _ s' => at_exit 0 s'
  | Exit status s' => at_exit status s'
  | Spin s' => Hangs s'
  | Kill signal s' => Killed signal s'
  end.

End Program.

(* ================================================================== *)
(** * Loading the configuration: the loop of [parse_options] *)
(* ================================================================== *)

Module Config.
Import CStr.

(** The out-parameters of [parse_options] ([None] is [NULL]) and its flag. *)
Record t : Type := {
  config : option string;
  mtu : Z;
  addrs : option string;
  dnses : option string;
  in_interface_section : bool
}.

Definition empty : t :=
  {| config := None; mtu := 0; addrs := None; dnses := None;
     in_interface_section := false |}.

Definition concat_and_free (orig : option string) (delim new_line : string)
  : option string :=
  match orig with
  | None => Some new_line
  | Some o => Some (o ++ delim ++ new_line)
  end.

(** [!strcasecmp(a, b)] and [!strncasecmp(a, b, n)]. *)
Definition strcaseeq (a b : string) : bool :=
  String.eqb (map tolower a) (map tolower b).

Definition strncaseeq (n : nat) (a b : string) : bool :=
  strcaseeq (take n a) (take n b).

Definition not_space (c : ascii) : bool := negb (isspace c).

(** The copy of the line without its white space. *)
Definition clean_of (line : string) : string := filter not_space line.

Definition starts_with_bracket (clean : string) : bool :=
  match clean with
  | String "[" _ => true
  | _ => false
  end.

(** The body of the [getline] loop. *)
Definition parse_line (o : t) (line : string) : t :=
  let clean := clean_of line in
  let len := String.length clean in
  let sec := if starts_with_bracket clean then false
             else in_interface_section o in
  let sec := if strcaseeq clean "[Interface]" then true else sec in
  if sec && strncaseeq 8 clean "Address=" && (8 <? len)%nat then
    {| config := config o; mtu := mtu o;
       addrs := concat_and_free (addrs o) "," (drop 8 clean);
       dnses := dnses o; in_interface_section := sec |}
  else if sec && strncaseeq 4 clean "DNS=" && (4 <? len)%nat then
    {| config := config o; mtu := mtu o; addrs := addrs o;
       dnses := concat_and_free (dnses o) "," (drop 4 clean);
       in_interface_section := sec |}
  else if sec && strncaseeq 4 clean "MTU=" && (4 <? len)%nat then
    {| config := config o; mtu := to_uint (atoi (drop 4 clean));
       addrs := addrs o; dnses := dnses o; in_interface_section := sec |}
  else
    {| config := concat_and_free (config o) "" line; mtu := mtu o;
       addrs := addrs o; dnses := dnses o; in_interface_section := sec |}.

Definition parse_lines (lines : list string) : t :=
  fold_left parse_line lines empty.

(** [if (!*config) *config = xstrdup("")] and the like. *)
Definition or_empty (o : option string) : string :=
  match o with
  | Some s => s
  | None => EmptyString
  end.

(** What [parse_options] hands to [cmd_up] for a file holding [file]:
    config, mtu, addrs, dnses. *)
Definition parse_options (file : string) : string * Z * string * string :=
  let o := parse_lines (getlines file) in
  (or_empty (config o), mtu o, or_empty (addrs o), or_empty (dnses o)).

End Config.

(* ================================================================== *)
(** * Vocabulary of the statements *)
(* ================================================================== *)

(** The state a piece of the program leaves. *)
Definition res_state {A : Type} (r : res A) : pstate :=
  match r with
  | Ret _ s => s
  | Exit _ s => s
  | Spin s => s
  | Kill _ s => s
  end.

(** A piece of the program that only adds to the trace: it leaves the
    globals and the exit handler as they are. *)
Definition frames {A : Type} (m : M A) : Prop :=
  forall s, exists evs, res_state (m s) = push s evs.

(** A piece of the program that comes to an end by itself: it returns or
    calls [exit]. *)
Definition halts {A : Type} (m : M A) : Prop :=
  forall s, match m s with Ret _ _ | Exit _ _ => True | _ => False end.

(** The state in which [cmd_up] starts its work on [iface], [s] being the
    state at the call: the probe is in the trace, [cleanup_iface] names the
    interface and the exit handler is registered. *)
Definition registered (iface : string) (s : pstate) : pstate :=
  {| trace := trace s ++ [PopenR ("ip link show dev " ++ iface ++ " 2>/dev/null")];
     cleanup_iface := Some iface;
     is_exiting := is_exiting s;
     atexit_cleanup := true |}.

(** The state of a process that ends well: [cleanup_iface] is reset, the
    exit handler has run. *)
Definition completed (s : pstate) : pstate :=
  {| trace := trace s;
     cleanup_iface := None;
     is_exiting := true;
     atexit_cleanup := atexit_cleanup s |}.

(** The interface names [cmd_down] compares with: the words of the first
    line of [wg show interfaces] (which prints all names on one line). *)
Definition listed_interfaces (output : string) : list string :=
  match CStr.getlines output with
  | [] => []
  | ifaces :: _ => CStr.strtok_all (String " " nl) ifaces
  end.

(** Worlds for examples: the commands of a table do what the table says,
    whatever came before; of the others, ndc answers ["200 0 ok"] and the
    rest print nothing; all end with status 0.  Writing never fails, every
    draw of [random()] is [r]. *)
Fixpoint lookup (c : string) (table : list (string * outcome))
  : option outcome :=
  match table with
  | [] => None
  | (c', o) :: rest => if String.eqb c c' then Some o else lookup c rest
  end.

Definition scripted (table : list (string * outcome)) (r : Z) : world :=
  {| run := fun _ c =>
       match lookup c table with
       | Some o => o
       | None =>
           match CStr.strip_prefix "ndc " c with
           | Some _ => Spawned 0 ("200 0 ok" ++ nl)
           | None => Spawned 0 EmptyString
           end
       end;
     write_errno := fun _ _ _ => None;
     write_signal := fun _ _ _ => None;
     rnd := fun _ => r;
     E2BIG := 7;
     ULONG_MAX := 18446744073709551615 |}.

(** [wg0] exists already; the tunnels [wg1] and [wg2] are up. *)
Definition world_busy : world :=
  scripted
    [("ip link show dev wg0 2>/dev/null",
      Spawned 0 ("7: wg0: <POINTOPOINT,NOARP,UP,LOWER_UP> mtu 1420" ++ nl));
     ("wg show interfaces", Spawned 0 ("wg1 wg2" ++ nl))]
    74565.

(** [wg0] is up and bound to the network 0x1234. *)
Definition world_bound : world :=
  scripted
    [("wg show interfaces", Spawned 0 ("wg0" ++ nl));
     ("ip rule show",
      Spawned 0 ("0: from all lookup local" ++ nl ++
                 "13000: from all fwmark 0xc1234/0xcffff lookup wg0" ++ nl))]
    74565.

(** ndc refuses to bring [wg0] up and ends with status 1 (256 as a wait
    status); [wg show interfaces] prints its list and ends with the same
    status. *)
Definition world_refusing : world :=
  scripted
    [("ndc interface setcfg wg0 up",
      Spawned 256 ("400 0 Failed to set interface flags" ++ nl));
     ("wg show interfaces", Spawned 256 ("wg0" ++ nl))]
    74565.

(** [ip link add] fails. *)
Definition world_no_module : world :=
  scripted [("ip link add wg0 type wireguard", Spawned 512 EmptyString)] 74565.

(** The entries of a DNS or address list that pass the check for quotes
    and backslashes, in their order. *)
Definition sanitized (entries : string) : list string :=
  List.filter (fun t => negb (has_quote_or_backslash t))
              (CStr.strtok_all list_delims entries).

Definition quoted (t : string) : string := "'" ++ t ++ "'".

(** A character that cannot end a word between single quotes: neither the
    single quote nor the backslash. *)
Definition plain_char (c : ascii) : bool :=
  negb (Ascii.eqb c "'") && negb (Ascii.eqb c "\").

(** The entries of a DNS or address list that a command may hold: the
    words of the list made of such characters only, in their order. *)
Definition kept_entries (entries : string) : list string :=
  List.filter (CStr.all plain_char) (CStr.strtok_all list_delims entries).

(** What a call of ndc leaves in the trace: the echo of the command, and
    the command. *)
Definition ndc_call (c : string) : list event :=
  [Stdout ("[#] ndc " ++ c ++ nl); PopenR ("ndc " ++ c)].

(** After the calls [h], ndc takes the command [c]: it starts, and the
    first line it prints holds [200 0]. *)
Definition ndc_takes (w : world) (h : list event) (c : string) : bool :=
  match run w (h ++ [Stdout ("[#] ndc " ++ c ++ nl)]) ("ndc " ++ c) with
  | Spawned _ output =>
      match CStr.getlines output with
      | r :: _ => CStr.strstr r "200 0"
      | [] => false
      end
  | SpawnFailed _ => false
  end.


(** Total length of the strings of a list. *)
Fixpoint total_length (l : list string) : nat :=
  match l with
  | [] => O
  | t :: r => (String.length t + total_length r)%nat
  end.

(** The endpoints [set_mtu] looks up: group 1 of the lines of
    [wg show endpoints] that the endpoint pattern matches. *)
Fixpoint endpoints_of (lines : list string) : list string :=
  match lines with
  | [] => []
  | l :: r => match Rx.regex_endpoint l with
              | Some endpoint => endpoint :: endpoints_of r
              | None => endpoints_of r
              end
  end.


(** The commands of a trace, in order. *)
Fixpoint commands_of (t : list event) : list string :=
  match t with
  | [] => []
  | System c :: r => c :: commands_of r
  | PopenR c :: r => c :: commands_of r
  | PopenW c :: r => c :: commands_of r
  | _ :: r => commands_of r
  end.

(** The file [wg0.conf] of a tunnel with one peer. *)
Definition wg0_conf : string :=
  "[Interface]" ++ nl ++
  "PrivateKey = cHJpdmF0ZQ==" ++ nl ++
  "Address = 10.0.0.2/24" ++ nl ++
  "DNS = 1.1.1.1" ++ nl ++
  "[Peer]" ++ nl ++
  "PublicKey = cHVibGlj" ++ nl ++
  "AllowedIPs = 0.0.0.0/0" ++ nl.

(** A world in which every command succeeds: the default route has MTU
    1500 and the tunnel reports one range of allowed addresses. *)
Definition world_plain : world :=
  scripted
    [("ip -o route show default",
      Spawned 0 ("default via 10.0.0.1 dev wlan0 mtu 1500" ++ nl));
     ("wg show wg0 allowed-ips",
      Spawned 0 ("cHVibGlj" ++ String CStr.tab "0.0.0.0/0" ++ nl))]
    74565.

(** [wg-quick up wg0] once the file is open: [parse_options], then
    [cmd_up]. *)
Definition up (w : world) (fuel : nat) (iface file : string) : ending :=
  let '(config, mtu, addrs, dnses) := Config.parse_options file in
  run_process w (cmd_up w fuel iface config mtu addrs dnses) initial.

(** ** Reading a configuration file, line by line

    What the loader is meant to do with a line, said without the loop: a
    line belongs to an [Interface] section when the last line at or above
    it that starts with a bracket is [[Interface]]; in such a section the
    lines [Address=], [DNS=] and [MTU=] that have a value are taken out,
    every other line goes to the body. *)
Module ConfigSpec.
Import CStr Config.

Definition is_header (line : string) : bool :=
  starts_with_bracket (clean_of line).

Definition is_interface_header (line : string) : bool :=
  strcaseeq (clean_of line) "[Interface]".

(** Whether [line] lies in an [Interface] section, [before] telling
    whether the line above it does. *)
Definition section_of (before : bool) (line : string) : bool :=
  if is_interface_header line then true
  else if is_header line then false
  else before.

(** The value of a line [key value], [key] ending with ['=']: the line
    without its white space starts with [key] in any letter case and goes
    on. *)
Definition value_of (key line : string) : option string :=
  let clean := clean_of line in
  let n := String.length key in
  if strncaseeq n clean key && (n <? String.length clean)%nat
  then Some (drop n clean) else None.

Inductive kind : Type :=
| Address (value : string)
| Dns (value : string)
| Mtu (value : string)
| Other.

Definition classify (in_section : bool) (line : string) : kind :=
  if in_section then
    match value_of "Address=" line with
    | Some v => Address v
    | None =>
        match value_of "DNS=" line with
        | Some v => Dns v
        | None =>
            match value_of "MTU=" line with
            | Some v => Mtu v
            | None => Other
            end
        end
    end
  else Other.

(** The kinds of the lines of a file, [before] telling whether the file
    starts in an [Interface] section (it does not). *)
Fixpoint kinds (before : bool) (lines : list string) : list (kind * string) :=
  match lines with
  | [] => []
  | l :: r =>
      let sec := section_of before l in
      (classify sec l, l) :: kinds sec r
  end.

Fixpoint body_lines (ks : list (kind * string)) : list string :=
  match ks with
  | [] => []
  | (Other, l) :: r => l :: body_lines r
  | _ :: r => body_lines r
  end.

Fixpoint address_values (ks : list (kind * string)) : list string :=
  match ks with
  | [] => []
  | (Address v, _) :: r => v :: address_values r
  | _ :: r => address_values r
  end.

Fixpoint dns_values (ks : list (kind * string)) : list string :=
  match ks with
  | [] => []
  | (Dns v, _) :: r => v :: dns_values r
  | _ :: r => dns_values r
  end.

(** The last [MTU=] line decides; without one the MTU is 0. *)
Fixpoint mtu_value (current : Z) (ks : list (kind * string)) : Z :=
  match ks with
  | [] => current
  | (Mtu v, _) :: r => mtu_value (to_uint (atoi v)) r
  | _ :: r => mtu_value current r
  end.

(** [lines] ends in an [Interface] section: its last line that starts
    with a bracket is [[Interface]]. *)
Definition ends_in_interface_section (lines : list string) : Prop :=
  exists above header below,
    lines = (above ++ header :: below)%list /\
    is_interface_header header = true /\
    Forall (fun l => is_header l = false) below.

End ConfigSpec.

(** [concat_and_free] over several strings. *)
Fixpoint append_all (orig : option string) (delim : string)
         (ls : list string) : option string :=
  match ls with
  | [] => orig
  | l :: r => append_all (Config.concat_and_free orig delim l) delim r
  end.

(** A file with two [Interface] sections, a peer in between. *)
Definition two_sections : string :=
  "[Interface]" ++ nl ++
  "Address = 10.0.0.1/24" ++ nl ++
  "[Peer]" ++ nl ++
  "AllowedIPs = 0.0.0.0/0" ++ nl ++
  "[Interface]" ++ nl ++
  "Address = 10.0.0.2/24" ++ nl ++
  "DNS = 1.1.1.1" ++ nl.

(* ================================================================== *)
(** * The command line: [main], [auto_su] and the head of [parse_options] *)
(* ================================================================== *)

Module Cli.
Import CStr.

(** Remove the suffix [suf] from [s], when [s] ends with it. *)
Fixpoint chop_suffix (suf s : string) : option string :=
  if String.eqb s suf then Some EmptyString
  else match s with
       | String c r =>
           match chop_suffix suf r with
           | Some a => Some (String c a)
           | None => None
           end
       | EmptyString => None
       end.

(** ["/?([a-zA-Z0-9_=+.-]{1,16})\\.conf$"] at the start of [s]: a slash
    there can only be matched by the optional slash of the pattern, and the
    group is what stands between it and the final [.conf]. *)
Definition conf_at (s : string) : option string :=
  let t := match s with
           | String "/" r => r
           | _ => s
           end in
  match chop_suffix ".conf" t with
  | Some g => if Rx.regex_iface g then Some g else None
  | None => None
  end.

Definition regex_conf (s : string) : option string := Rx.search conf_at s.

(** What [fopen] and [fstat] find under a name. *)
Inductive file : Type :=
| OpenFailed (errno : Z)
| StatFailed (errno : Z)
| Opened (st_mode : Z) (contents : string).

(** The host the process starts on: its user id, its files, what [execvp]
    of [su] does ([None]: the process is replaced; [Some errno]: [execvp]
    returns), the text of [strerror], and [PATH_MAX]. *)
Record host : Type := {
  getuid : Z;
  fopen : string -> file;
  execvp_su : list string -> option Z;
  strerror : Z -> string;
  PATH_MAX : nat
}.

(** How an invocation ends: as a process of its own, or replaced by [su]
    with the arguments given. *)
Inductive invocation : Type :=
| Process (e : ending)
| Replaced (args : list string) (s : pstate).

Definition usage_text (program : string) : string :=
  "Usage: " ++ program ++ " [ up | down ] [ CONFIG_FILE | INTERFACE ]" ++ nl ++
  nl ++
  "  CONFIG_FILE is a configuration file, whose filename is the interface name" ++ nl ++
  "  followed by `.conf'. Otherwise, INTERFACE is an interface name, with" ++ nl ++
  "  configuration found at /data/misc/wireguard/INTERFACE.conf. It is to be readable" ++ nl ++
  "  by wg(8)'s `setconf' sub-command, with the exception of the following additions" ++ nl ++
  "  to the [Interface] section, which are handled by " ++ program ++ ":" ++ nl ++
  nl ++
  "  - Address: may be specified one or more times and contains one or more" ++ nl ++
  "    IP addresses (with an optional CIDR mask) to be set for the interface." ++ nl ++
  "  - MTU: an optional MTU for the interface; if unspecified, auto-calculated." ++ nl ++
  "  - DNS: an optional DNS server to use while the device is up." ++ nl ++
  nl ++
  "See wg-quick(8) for more info and examples." ++ nl.

Definition cmd_usage (program : string) : M unit :=
  log (Stdout (usage_text program)).

Section WithHost.
Variable h : host.
Variable w : world.

(** The name [parse_options] opens: [snprintf] into [PATH_MAX] bytes for
    an interface name, [strncpy] of [PATH_MAX] bytes for a path. *)
Definition filename_of (arg : string) : string :=
  if Rx.regex_iface arg
  then take (PATH_MAX h - 1) ("/data/misc/wireguard/" ++ arg ++ ".conf")
  else take (PATH_MAX h) arg.

(** [parse_options]: the values left in [*iface], [*config], [*mtu],
    [*addrs] and [*dnses]. *)
Definition fail_bad_name {A : Type} : M A :=
  log (Stderr ("Error: The config file must be a valid interface name, followed by .conf" ++ nl)) ;;
  exit 77.

Definition parse_options (arg : string)
  : M (string * string * Z * string * string) :=
  let filename := filename_of arg in
  match fopen h filename with
  | OpenFailed errno =>
      log (Stderr ("Error: Unable to open configuration file `" ++ filename ++
                   "': " ++ strerror h errno ++ nl)) ;;
      exit errno
  | StatFailed errno =>
      match regex_conf filename with
      | None => fail_bad_name
      | Some _ => log (Perror "Error: fstat") ;; exit errno
      end
  | Opened st_mode contents =>
      match regex_conf filename with
      | None => fail_bad_name
      | Some iface =>
          (if negb (Z.land st_mode 7 =? 0)
           then log (Stderr ("Warning: `" ++ filename ++
                             "' is world accessible" ++ nl))
           else ret tt) ;;
          let '(config, mtu, addrs, dnses) := Config.parse_options contents in
          ret (iface, config, mtu, addrs, dnses)
      end
  end.

(** [auto_su] followed by the rest of [main]: as root the rest runs; as
    another user the process prints its notice and calls [execvp]. *)
Definition auto_su (program : string) (args : list string) (rest : M unit)
  : invocation :=
  if getuid h =? 0 then Process (run_process w rest initial)
  else
    let s := push initial [Stdout ("[$] su -p -c wg-quick" ++ nl)] in
    match execvp_su h ("su" :: "-p" :: "-c" :: program :: args) with
    | None => Replaced ("su" :: "-p" :: "-c" :: program :: args) s
    | Some errno => Process (Ended errno s)
    end.

Definition is_help (a : string) : bool :=
  String.eqb a "help" || String.eqb a "--help" || String.eqb a "-h".

(** [main], [program] being [argv[0]] and [args] the arguments after
    it. *)
Definition main (fuel : nat) (program : string) (args : list string)
  : invocation :=
  match args with
  | [a] =>
      if is_help a then Process (run_process w (cmd_usage program) initial)
      else Process (run_process w (cmd_usage program ;; exit 1) initial)
  | [verb; arg] =>
      if String.eqb verb "up" then
        auto_su program args
          (o <- parse_options arg ;;
           let '(iface, config, mtu, addrs, dnses) := o in
           cmd_up w fuel iface config mtu addrs dnses)
      else if String.eqb verb "down" then
        auto_su program args
          (o <- parse_options arg ;;
           let '(iface, _, _, _, _) := o in
           cmd_down w iface)
      else Process (run_process w (cmd_usage program ;; exit 1) initial)
  | _ => Process (run_process w (cmd_usage program ;; exit 1) initial)
  end.

End WithHost.

(** A host for examples: root, with the files of a table. *)
Fixpoint find_file (name : string) (table : list (string * file)) : file :=
  match table with
  | [] => OpenFailed 2
  | (n, f) :: rest => if String.eqb name n then f else find_file name rest
  end.

Definition host_of (uid : Z) (table : list (string * file)) : host :=
  {| getuid := uid;
     fopen := fun name => find_file name table;
     execvp_su := fun _ => None;
     strerror := fun _ => "No such file or directory";
     PATH_MAX := 4096 |}.

End Cli.

(** A host for examples: root owns four files, one of them readable by
    everybody. *)
Definition host_root : Cli.host :=
  Cli.host_of 0
    [("/data/misc/wireguard/wg0.conf", Cli.Opened 420 wg0_conf);
     ("/sdcard/wg0.conf", Cli.Opened 384 wg0_conf);
     ("/sdcard/my-very-long-tunnel-name.conf", Cli.Opened 384 wg0_conf);
     ("/sdcard/wg0.txt", Cli.Opened 384 wg0_conf)].

(** [wg show endpoints] prints a key, a tab and the endpoint on a line of
    its own; the route to the peer has MTU 1300, the default route 1500. *)
Definition world_peer_lines : world :=
  scripted
    [("ip -o route show default",
      Spawned 0 ("default via 10.0.0.1 dev wlan0 mtu 1500" ++ nl));
     ("wg show wg0 endpoints",
      Spawned 0 ("cHVibGlj" ++ String CStr.tab "192.0.2.7:51820" ++ nl));
     ("ip -o route get 192.0.2.7",
      Spawned 0 ("192.0.2.7 via 10.0.0.1 dev wlan0 src 10.0.0.9 mtu 1300" ++ nl))]
    74565.

(** [ip link del] fails. *)
Definition world_stuck : world :=
  scripted
    [("wg show interfaces", Spawned 0 ("wg0" ++ nl));
     ("ip link del wg0", Spawned 256 EmptyString)]
    74565.

(** ** Words for the further properties *)

(** The last character of a string. *)
Fixpoint last_char (s : string) : option ascii :=
  match s with
  | EmptyString => None
  | String c EmptyString => Some c
  | String _ r => last_char r
  end.


(** The endpoint pattern once the optional opening bracket is gone. *)
Definition endpoint_body (s1 : string) : option string :=
  match Rx.rsplit ":" s1 with
  | Some (a, port) =>
      let g := Rx.chop_last "]" a in
      if negb (CStr.is_empty port) && CStr.all CStr.isdigit port &&
         negb (CStr.is_empty g) && CStr.all Rx.endpoint_char g
      then Some g else None
  | None => None
  end.

(** The command [add_addr] gives ndc for an IPv4 address: the address up
    to its slash, and as prefix length what follows the slash, read as a
    number and cut to an [unsigned char], or 32 without a slash. *)
Definition addr_command (iface addr : string) : string :=
  "interface setcfg " ++ iface ++ " '" ++
  CStr.take_while not_slash addr ++ "' " ++
  CStr.fmt_u (if CStr.has_char addr "/"
              then CStr.atoi (CStr.drop 1 (CStr.drop_while not_slash addr))
                   mod 256
              else 32).


(** [wg setconf] has gone before its input is written: the write to its
    pipe raises [SIGPIPE] (13).  Every command succeeds. *)
Definition world_sigpipe : world :=
  {| run := run world_plain;
     write_errno := fun _ _ _ => None;
     write_signal := fun _ _ _ => Some 13;
     rnd := rnd world_plain;
     E2BIG := 7;
     ULONG_MAX := 18446744073709551615 |}.


(** An interface name that [regcomp] reads letter by letter. *)
Definition plain_name (iface : string) : bool :=
  CStr.all (fun c => negb (Ascii.eqb c "." || Ascii.eqb c "+")) iface.

(** A state of the process but for [is_exiting]. *)
Definition unwinding (s : pstate) : pstate :=
  {| trace := trace s; cleanup_iface := cleanup_iface s;
     is_exiting := true; atexit_cleanup := atexit_cleanup s |}.

(* ================================================================== *)
(** * Properties of the network id loop *)
(* ================================================================== *)

Lemma mask_netid_range r : 0 <= mask_netid r <= 65534.
Proof.
  unfold mask_netid. split.
  - apply Z.land_nonneg. right. lia.
  - assert (H : Z.land r 65534 = Z.land r 65534 mod 2 ^ 16).
    { rewrite <- (Z.land_ones _ 16) by lia. rewrite <- Z.land_assoc.
      reflexivity. }
    assert (B : 0 <= Z.land r 65534 mod 2 ^ 16 < 2 ^ 16)
      by (apply Z.mod_pos_bound; lia).
    assert (E : Z.land r 65534 mod 2 = 0).
    { rewrite <- (Z.land_ones _ 1) by lia. rewrite <- Z.land_assoc.
      change (Z.land 65534 (Z.ones 1)) with 0. apply Z.land_0_r. }
    rewrite <- H in B.
    change (2 ^ 16) with 65536 in B.
    assert (Z.land r 65534 <> 65535).
    { intro C. rewrite C in E. discriminate E. }
    lia.
Qed.

Lemma mask_netid_even r : mask_netid r mod 2 = 0.
Proof.
  unfold mask_netid.
  rewrite <- (Z.land_ones _ 1) by lia. rewrite <- Z.land_assoc.
  change (Z.land 65534 (Z.ones 1)) with 0. apply Z.land_0_r.
Qed.

Lemma netid_loop_done rnd fuel i netid :
  4096 <= netid -> netid_loop rnd fuel i netid = Some netid.
Proof.
  intros H. apply Z.ltb_ge in H. destruct fuel; simpl; rewrite H; reflexivity.
Qed.

Lemma netid_loop_sound rnd fuel : forall i netid id,
  netid < 4096 ->
  netid_loop rnd fuel i netid = Some id ->
  exists k, id = mask_netid (rnd k) /\ 4096 <= id.
Proof.
  induction fuel as [|fuel IH]; intros i netid id Hlt H; simpl in H;
    apply Z.ltb_lt in Hlt; rewrite Hlt in H; [discriminate|].
  destruct (Z_lt_dec (mask_netid (rnd i)) 4096) as [Hs|Hs].
  - eapply IH; eauto.
  - rewrite netid_loop_done in H by lia.
    inversion H; subst. exists i. split; [reflexivity|lia].
Qed.

(** Once the loop is at draw [i] with a candidate below 4096, it returns
    the first masked draw at or after [i] that reaches 4096, provided the
    fuel lasts that far. *)
Lemma netid_loop_first rnd : forall d fuel i netid,
  netid < 4096 ->
  (forall m, (i <= m < i + d)%nat -> mask_netid (rnd m) < 4096) ->
  4096 <= mask_netid (rnd (i + d)%nat) ->
  (d < fuel)%nat ->
  netid_loop rnd fuel i netid = Some (mask_netid (rnd (i + d)%nat)).
Proof.
  induction d as [|d IH]; intros fuel i netid Hlt Hbelow Hhit Hfuel;
    (destruct fuel as [|fuel]; [lia|]); simpl;
    apply Z.ltb_lt in Hlt; rewrite Hlt.
  - rewrite Nat.add_0_r in *. apply netid_loop_done. exact Hhit.
  - replace (i + S d)%nat with (S i + d)%nat in * by lia.
    apply IH.
    + apply Hbelow. lia.
    + intros m Hm. apply Hbelow. lia.
    + exact Hhit.
    + lia.
Qed.

(** Every fuel that does not suffice to reach a good draw leaves the loop
    running. *)
Lemma netid_loop_spins rnd : forall fuel i netid,
  netid < 4096 ->
  (forall m, (i <= m)%nat -> mask_netid (rnd m) < 4096) ->
  netid_loop rnd fuel i netid = None.
Proof.
  induction fuel as [|fuel IH]; intros i netid Hlt Hall; simpl;
    apply Z.ltb_lt in Hlt; rewrite Hlt; [reflexivity|].
  apply IH; [apply Hall; lia | intros m Hm; apply Hall; lia].
Qed.

(** The least index with a property that holds somewhere. *)
Lemma first_good_draw (P : nat -> bool) : forall n,
  P n = true ->
  exists n0, (n0 <= n)%nat /\ P n0 = true /\
             forall m, (m < n0)%nat -> P m = false.
Proof.
  induction n as [n IH] using (well_founded_induction lt_wf); intros Hn.
  destruct (existsb P (seq 0 n)) eqn:E.
  - apply existsb_exists in E. destruct E as [m [Hin Hm]].
    apply in_seq in Hin.
    destruct (IH m ltac:(lia) Hm) as [n0 [Hle [H0 Hmin]]].
    exists n0. repeat split; auto. lia.
  - exists n. repeat split; auto.
    intros m Hm. destruct (P m) eqn:Pm; [|reflexivity].
    assert (X : existsb P (seq 0 n) = true).
    { apply existsb_exists. exists m. split; [apply in_seq; lia | exact Pm]. }
    congruence.
Qed.

(** The id [up_if] returns is the one its loop has found. *)
Lemma up_if_returns (w : world) (fuel : nat) (iface : string)
      (s s' : pstate) (id : Z) :
  up_if w fuel 0 iface s = Ret id s' ->
  netid_loop (rnd w) fuel 0 0 = Some id.
Proof.
  unfold up_if. destruct (netid_loop (rnd w) fuel 0 0) as [id'|];
    [|discriminate].
  unfold bind.
  repeat match goal with
         | |- context [match ?m ?st with _ => _ end] =>
             match m with
             | cmd _ _ => destruct (m st) as [[] ?| | |]; try discriminate
             | cndc _ _ => destruct (m st) as [[] ?| | |]; try discriminate
             end
         end.
  unfold ret. intros H. injection H as <- _. reflexivity.
Qed.

(** C6. Whatever values the pseudo-random source yields, a network id the
    allocation loop of [up_if] returns (started from 0, as [cmd_up] does)
    lies in 4096..65534 and is even; so does the id [up_if] hands back to
    [cmd_up]. *)
Theorem alloc_netid_range (rnd : nat -> Z) (fuel : nat) (id : Z) :
  (alloc_netid rnd fuel = Some id ->
   4096 <= id <= 65534 /\ id mod 2 = 0)
  /\
  (forall (w : world) (iface : string) (s s' : pstate),
      up_if w fuel 0 iface s = Ret id s' ->
      4096 <= id <= 65534 /\ id mod 2 = 0).
Proof.
  assert (R : forall r, netid_loop r fuel 0 0 = Some id ->
                        4096 <= id <= 65534 /\ id mod 2 = 0).
  { intros r H. apply netid_loop_sound in H; [|lia].
    destruct H as [k [-> Hge]].
    pose proof (mask_netid_range (r k)).
    pose proof (mask_netid_even (r k)). lia. }
  split.
  - apply R.
  - intros w iface s s' H. apply up_if_returns in H. eapply R. exact H.
Qed.

(** A source whose first two draws mask below 4096 and whose third draw is
    0x12345: the loop returns 0x2344 = 9028. *)
Lemma alloc_netid_range_witness :
  alloc_netid (fun i => match i with 0%nat => 7 | 1%nat => 4095 | _ => 74565 end)
              5 = Some 9028 /\
  (4096 <= 9028 <= 65534 /\ 9028 mod 2 = 0).
Proof.
  split; [reflexivity|].
  apply (proj1 (alloc_netid_range
           (fun i => match i with 0%nat => 7 | 1%nat => 4095 | _ => 74565 end)
           5 9028)).
  reflexivity.
Defined.

(** C10. The allocation loop terminates exactly when some draw of the
    source masks to at least 4096, and it then returns the first such
    masked draw (for every fuel that reaches it). *)
Theorem alloc_netid_terminates_iff (rnd : nat -> Z) :
  ((exists fuel id, alloc_netid rnd fuel = Some id) <->
   (exists n, 4096 <= mask_netid (rnd n)))
  /\
  (forall n,
     4096 <= mask_netid (rnd n) ->
     (forall m, (m < n)%nat -> mask_netid (rnd m) < 4096) ->
     forall fuel, (n < fuel)%nat ->
       alloc_netid rnd fuel = Some (mask_netid (rnd n))).
Proof.
  assert (First : forall n,
     4096 <= mask_netid (rnd n) ->
     (forall m, (m < n)%nat -> mask_netid (rnd m) < 4096) ->
     forall fuel, (n < fuel)%nat ->
       alloc_netid rnd fuel = Some (mask_netid (rnd n))).
  { intros n Hhit Hbelow fuel Hfuel. unfold alloc_netid.
    apply (netid_loop_first rnd n fuel 0%nat 0); try lia; auto.
    intros m Hm. apply Hbelow. lia. }
  split; [split|exact First].
  - intros [fuel [id H]]. unfold alloc_netid in H.
    apply netid_loop_sound in H; [|lia].
    destruct H as [k [-> Hge]]. exists k. exact Hge.
  - intros [n Hn].
    destruct (first_good_draw (fun k => 4096 <=? mask_netid (rnd k)) n)
      as [n0 [_ [H0 Hmin]]].
    { apply Z.leb_le. exact Hn. }
    exists (S n0), (mask_netid (rnd n0)).
    apply First; [apply Z.leb_le; exact H0 | | lia].
    intros m Hm. specialize (Hmin m Hm). apply Z.leb_gt in Hmin. exact Hmin.
Qed.

(** The same source as above: draws 7 and 4095 are rejected, the third one
    is returned. *)
Lemma alloc_netid_terminates_iff_witness :
  alloc_netid (fun i => match i with 0%nat => 7 | 1%nat => 4095 | _ => 74565 end)
              3 = Some 9028.
Proof.
  apply (proj2 (alloc_netid_terminates_iff
           (fun i => match i with 0%nat => 7 | 1%nat => 4095 | _ => 74565 end))
           2%nat).
  - vm_compute. discriminate.
  - intros m Hm.
    destruct m as [|[|m]]; [vm_compute; reflexivity | vm_compute; reflexivity | lia].
  - lia.
Defined.

(* ================================================================== *)
(** * Strings: basic facts *)
(* ================================================================== *)

Lemma append_nil_r (s : string) : s ++ "" = s.
Proof. induction s as [|c s IH]; simpl; [reflexivity | now rewrite IH]. Qed.

Lemma append_assoc (a b c : string) : (a ++ b) ++ c = a ++ (b ++ c).
Proof. induction a as [|x a IH]; simpl; [reflexivity | now rewrite IH]. Qed.

Lemma length_append (a b : string) :
  String.length (a ++ b) = (String.length a + String.length b)%nat.
Proof. induction a as [|x a IH]; simpl; [reflexivity | now rewrite IH]. Qed.

Lemma take_all (n : nat) (s : string) :
  (String.length s <= n)%nat -> CStr.take n s = s.
Proof.
  revert n. induction s as [|c s IH]; intros [|n] H; simpl in *;
    try reflexivity; try lia.
  rewrite IH by lia. reflexivity.
Qed.

Lemma take_app_exact (a b : string) :
  CStr.take (String.length a) (a ++ b) = a.
Proof. induction a as [|c a IH]; simpl; [now destruct b | now rewrite IH]. Qed.

Lemma regex_iface_length (iface : string) :
  Rx.regex_iface iface = true -> (1 <= String.length iface <= 16)%nat.
Proof.
  unfold Rx.regex_iface. intros H.
  apply andb_prop in H. destruct H as [H _].
  apply andb_prop in H. destruct H as [H1 H2].
  apply Nat.leb_le in H2. destruct iface; simpl in *; [discriminate | lia].
Qed.

(** Commands built around an interface name fit the command buffer. *)
Ltac short_command :=
  unfold too_long; apply Z.leb_gt;
  repeat (rewrite length_append || simpl String.length); lia.

(* ================================================================== *)
(** * The process monad: equations of the primitive calls *)
(* ================================================================== *)

Lemma push_push (s : pstate) (a b : list event) :
  push (push s a) b = push s (a ++ b).
Proof. unfold push. simpl. rewrite app_assoc. reflexivity. Qed.

Lemma push_nil (s : pstate) : push s [] = s.
Proof. destruct s. unfold push. simpl. rewrite app_nil_r. reflexivity. Qed.

Lemma bind_ret_l {A B : Type} (a : A) (k : A -> M B) (s : pstate) :
  bind (ret a) k s = k a s.
Proof. reflexivity. Qed.

Lemma bind_assoc {A B C : Type} (m : M A) (k : A -> M B) (k' : B -> M C)
      (s : pstate) :
  bind (bind m k) k' s = bind m (fun a => bind (k a) k') s.
Proof. unfold bind. destruct (m s); reflexivity. Qed.

Section Calls.
Variable w : world.

Lemma cmd_eq (c : string) (s : pstate) :
  too_long c = false ->
  cmd w c s =
  let s' := push s [Stdout ("[#] " ++ c ++ nl); System c] in
  let r := system_status w (trace s ++ [Stdout ("[#] " ++ c ++ nl)]) c in
  if negb (r =? 0) && negb (is_exiting s) then Exit r s' else Ret tt s'.
Proof.
  intros H. unfold cmd. rewrite H.
  unfold bind, log, system, get_trace, get_is_exiting, ret, exit, bind.
  simpl. rewrite push_push. simpl app.
  destruct (negb (system_status w _ c =? 0) && negb (is_exiting s));
    reflexivity.
Qed.

Lemma cmd_ret_eq (c : string) (s : pstate) :
  too_long c = false ->
  cmd_ret w c s =
  match run w (trace s) c with
  | SpawnFailed errno => Exit errno (push s [PopenR c; Perror "Error: popen"])
  | Spawned _ output => Ret (CStr.getlines output) (push s [PopenR c])
  end.
Proof.
  intros H. unfold cmd_ret. rewrite H.
  unfold bind, log, get_trace, ret, exit. simpl.
  destruct (run w (trace s) c); simpl; [rewrite push_push|]; reflexivity.
Qed.

Lemma cmd_ret_too_long (c : string) (s : pstate) :
  too_long c = true ->
  cmd_ret w c s = Exit (E2BIG w) (push s [Perror "Error: vsnprintf"]).
Proof. intros H. unfold cmd_ret. rewrite H. reflexivity. Qed.

End Calls.

Section Commands.
Variable w : world.

Lemma cndc_eq (c : string) (s : pstate) :
  too_long ("ndc " ++ c) = false ->
  cndc w c s =
  let s1 := push s [Stdout ("[#] ndc " ++ c ++ nl)] in
  match run w (trace s1) ("ndc " ++ c) with
  | SpawnFailed errno =>
      Exit errno (push s1 [PopenR ("ndc " ++ c); Perror "Error: popen"])
  | Spawned _ output =>
      match CStr.getlines output with
      | [] => Exit 29 (push s1 [PopenR ("ndc " ++ c)])
      | r :: _ =>
          if CStr.strstr r "200 0" then Ret tt (push s1 [PopenR ("ndc " ++ c)])
          else Exit 29 (push s1 [PopenR ("ndc " ++ c);
                                 Stderr ("Error: " ++ r ++ nl)])
      end
  end.
Proof.
  intros H. unfold cndc.
  unfold bind at 1. unfold log at 1.
  unfold bind at 1. rewrite (cmd_ret_eq w _ _ H).
  cbv zeta.
  destruct (run w _ ("ndc " ++ c)) as [e|st out].
  - reflexivity.
  - destruct (CStr.getlines out) as [|r rest]; [reflexivity|].
    destruct (CStr.strstr r "200 0"); [reflexivity|].
    unfold bind, log, exit. rewrite (push_push (push s _)). reflexivity.
Qed.

Lemma del_if_eq (iface : string) (s : pstate) :
  Rx.regex_iface iface = true ->
  del_if w iface s =
  let c := "ip link del " ++ iface in
  let s1 := push s [Stdout ("[#] " ++ c ++ nl); System c] in
  let r := system_status w (trace s ++ [Stdout ("[#] " ++ c ++ nl)]) c in
  if negb (r =? 0) && negb (is_exiting s) then Exit r s1
  else
    match run w (trace s1) "ip rule show" with
    | SpawnFailed errno =>
        Exit errno (push s1 [PopenR "ip rule show"; Perror "Error: popen"])
    | Spawned _ output =>
        let s2 := push s1 [PopenR "ip rule show"] in
        match first_rule iface (CStr.getlines output) with
        | Some netid =>
            cndc w ("network destroy " ++ CStr.fmt_u (strtoul16 w netid)) s2
        | None => Ret tt s2
        end
    end.
Proof.
  intros Hi. apply regex_iface_length in Hi.
  unfold del_if. unfold bind at 1.
  rewrite cmd_eq by short_command.
  cbv zeta.
  destruct (negb _ && negb _); [reflexivity|].
  unfold bind. rewrite cmd_ret_eq by reflexivity.
  destruct (run w _ "ip rule show") as [e|st out]; [reflexivity|].
  destruct (first_rule iface (CStr.getlines out)); reflexivity.
Qed.

End Commands.

(* ================================================================== *)
(** * Precondition failures *)
(* ================================================================== *)

Lemma existsb_eqb_false (x : string) (l : list string) :
  ~ In x l -> existsb (String.eqb x) l = false.
Proof.
  intros H. destruct (existsb (String.eqb x) l) eqn:E; [|reflexivity].
  apply existsb_exists in E. destruct E as [y [Hin Heq]].
  apply String.eqb_eq in Heq. subst. contradiction.
Qed.

(** C5. When the probe of [cmd_up] finds the interface ([ip link show dev]
    prints something), the process prints "already exists" to the error
    stream and ends with status 92; when the name given to [cmd_down] is
    not among the names [wg show interfaces] lists, it prints "is not a
    WireGuard interface" and ends with status 43.  In both cases the query
    is the only command the program has run. *)
Theorem precondition_failures (w : world) (iface : string) (s : pstate) :
  Rx.regex_iface iface = true ->
  atexit_cleanup s = false ->
  (forall status output fuel config mtu addrs dnses,
      run w (trace s) ("ip link show dev " ++ iface ++ " 2>/dev/null")
        = Spawned status output ->
      output <> EmptyString ->
      run_process w (cmd_up w fuel iface config mtu addrs dnses) s =
      Ended 92
        (push s [PopenR ("ip link show dev " ++ iface ++ " 2>/dev/null");
                 Stderr ("Error: " ++ iface ++ " already exists" ++ nl)]))
  /\
  (forall status output,
      run w (trace s) "wg show interfaces" = Spawned status output ->
      ~ In iface (listed_interfaces output) ->
      run_process w (cmd_down w iface) s =
      Ended 43
        (push s [PopenR "wg show interfaces";
                 Stderr ("Error: " ++ iface ++
                         " is not a WireGuard interface" ++ nl)])).
Proof.
  intros Hi Hat. pose proof (regex_iface_length _ Hi) as Hlen. split.
  - intros status output fuel config mtu addrs dnses Hrun Hout.
    unfold run_process, cmd_up. unfold bind at 1.
    rewrite cmd_ret_eq by short_command. rewrite Hrun.
    destruct output as [|c output]; [congruence|].
    assert (L : exists l ls, CStr.getlines (String c output) = l :: ls).
    { simpl. destruct (Ascii.eqb c CStr.newline); [eauto|].
      destruct (CStr.getlines output); eauto. }
    destruct L as [l [ls ->]].
    unfold bind, log, exit. rewrite push_push. simpl app.
    unfold at_exit. simpl. rewrite Hat. reflexivity.
  - intros status output Hrun Hnot.
    unfold run_process, cmd_down. unfold bind at 1.
    rewrite cmd_ret_eq by reflexivity. rewrite Hrun.
    unfold listed_interfaces in Hnot.
    assert (F : match CStr.getlines output with
                | [] => false
                | ifaces :: _ =>
                    existsb (String.eqb iface)
                            (CStr.strtok_all (String " " nl) ifaces)
                end = false).
    { destruct (CStr.getlines output); [reflexivity|].
      apply existsb_eqb_false. exact Hnot. }
    rewrite F. change (negb false) with true. cbv iota.
    unfold bind, log, exit. rewrite push_push. simpl app.
    unfold at_exit. simpl. rewrite Hat. reflexivity.
Qed.

(** In [world_busy], bringing [wg0] up and taking [wg0] down both stop at
    the precondition. *)
Lemma precondition_failures_witness :
  run_process world_busy (cmd_up world_busy 1 "wg0" "" 0 "" "") initial =
    Ended 92
      (push initial [PopenR "ip link show dev wg0 2>/dev/null";
                     Stderr ("Error: wg0 already exists" ++ nl)])
  /\
  run_process world_busy (cmd_down world_busy "wg0") initial =
    Ended 43
      (push initial [PopenR "wg show interfaces";
                     Stderr ("Error: wg0 is not a WireGuard interface" ++ nl)]).
Proof.
  destruct (precondition_failures world_busy "wg0" initial eq_refl eq_refl)
    as [Hup Hdown].
  split.
  - apply (Hup 0 ("7: wg0: <POINTOPOINT,NOARP,UP,LOWER_UP> mtu 1420" ++ nl)).
    + reflexivity.
    + discriminate.
  - apply (Hdown 0 ("wg1 wg2" ++ nl)).
    + reflexivity.
    + vm_compute. intros [H|[H|[]]]; discriminate H.
Defined.

(* ================================================================== *)
(** * Failures of the commands *)
(* ================================================================== *)

(** C3, as stated, fails: in [world_refusing] the command
    [wg show interfaces] ends with the nonzero status 256 and [cmd_down]
    goes on to delete the interface and ends with status 0; and when
    [cmd_up] reaches the ndc command that ends with status 256, the
    process ends with status 29. *)
Lemma nonzero_status_not_propagated :
  run world_refusing [] "wg show interfaces" = Spawned 256 ("wg0" ++ nl) /\
  run_process world_refusing (cmd_down world_refusing "wg0") initial =
    Ended 0
      (push initial [PopenR "wg show interfaces";
                     Stdout ("[#] ip link del wg0" ++ nl);
                     System "ip link del wg0";
                     PopenR "ip rule show"]) /\
  (forall h, run world_refusing h "ndc interface setcfg wg0 up"
             = Spawned 256 ("400 0 Failed to set interface flags" ++ nl)) /\
  exists s,
    run_process world_refusing (cmd_up world_refusing 1 "wg0" "" 1400 "" "")
                initial = Ended 29 s /\
    In (PopenR "ndc interface setcfg wg0 up") (trace s).
Proof.
  split; [reflexivity|]. split; [vm_compute; reflexivity|].
  split; [intros h; reflexivity|].
  eexists. split; [vm_compute; reflexivity|].
  vm_compute. do 11 right. left. reflexivity.
Qed.

(** C3, amended.  A command run by [cmd] that makes [system] return a
    nonzero value ends the process through [exit] with that value, unless
    the exit handler is unwinding ([is_exiting]): then [cmd] returns.  A
    command read through [cmd_ret] yields its lines whatever its status.
    Outside the exit handler, an ndc command whose first line of output is
    missing or lacks ["200 0"] ends the process through [exit(29)],
    whatever its status, and one whose first line holds ["200 0"]
    returns. *)
Theorem command_failure_policy (w : world) (c : string) (s : pstate) :
  too_long ("ndc " ++ c) = false ->
  let r := system_status w (trace s ++ [Stdout ("[#] " ++ c ++ nl)]) c in
  let s' := push s [Stdout ("[#] " ++ c ++ nl); System c] in
  (r <> 0 -> is_exiting s = false -> cmd w c s = Exit r s') /\
  (r = 0 -> cmd w c s = Ret tt s') /\
  (is_exiting s = true -> cmd w c s = Ret tt s') /\
  (forall status output,
      run w (trace s) c = Spawned status output ->
      cmd_ret w c s = Ret (CStr.getlines output) (push s [PopenR c])) /\
  (forall status output,
      is_exiting s = false ->
      run w (trace s ++ [Stdout ("[#] ndc " ++ c ++ nl)]) ("ndc " ++ c)
        = Spawned status output ->
      let s1 := push s [Stdout ("[#] ndc " ++ c ++ nl); PopenR ("ndc " ++ c)] in
      match CStr.getlines output with
      | [] => cndc w c s = Exit 29 s1
      | l :: _ =>
          if CStr.strstr l "200 0" then cndc w c s = Ret tt s1
          else cndc w c s = Exit 29 (push s1 [Stderr ("Error: " ++ l ++ nl)])
      end).
Proof.
  intros Hlen r s'.
  assert (Hc : too_long c = false).
  { unfold too_long in *. apply Z.leb_gt in Hlen. apply Z.leb_gt.
    simpl String.length in Hlen. lia. }
  repeat split.
  - intros Hr Hx. rewrite cmd_eq by exact Hc. cbv zeta. fold r. rewrite Hx.
    apply Z.eqb_neq in Hr. rewrite Hr. reflexivity.
  - intros Hr. rewrite cmd_eq by exact Hc. cbv zeta. fold r. rewrite Hr.
    reflexivity.
  - intros Hx. rewrite cmd_eq by exact Hc. cbv zeta. rewrite Hx.
    rewrite andb_false_r. reflexivity.
  - intros status output Hrun. rewrite cmd_ret_eq by exact Hc. rewrite Hrun.
    reflexivity.
  - intros status output Hx Hrun s1. rewrite cndc_eq by exact Hlen.
    cbv zeta.
    change (trace (push s [Stdout ("[#] ndc " ++ c ++ nl)]))
      with (trace s ++ [Stdout ("[#] ndc " ++ c ++ nl)])%list.
    rewrite Hrun.
    destruct (CStr.getlines output) as [|l ls].
    + rewrite push_push. reflexivity.
    + destruct (CStr.strstr l "200 0"); unfold s1;
        rewrite !push_push; reflexivity.
Qed.

(** In [world_no_module], [ip link add] makes [system] return 512 and
    [add_if] ends the process with that value. *)
Lemma command_failure_policy_witness :
  cmd world_no_module "ip link add wg0 type wireguard" initial =
    Exit 512 (push initial [Stdout ("[#] ip link add wg0 type wireguard" ++ nl);
                            System "ip link add wg0 type wireguard"]).
Proof.
  destruct (command_failure_policy world_no_module
              "ip link add wg0 type wireguard" initial eq_refl)
    as [H _].
  apply H.
  - vm_compute. discriminate.
  - reflexivity.
Defined.

(* ================================================================== *)
(** * Taking an interface down *)
(* ================================================================== *)

(** C4, as stated, fails: in [world_bound], where the rule of network
    0x1234 points to [wg0], [cmd_down] deletes the interface and then asks
    ndc to destroy network 4660. *)
Lemma cmd_down_destroys_network :
  run_process world_bound (cmd_down world_bound "wg0") initial =
    Ended 0
      (push initial [PopenR "wg show interfaces";
                     Stdout ("[#] ip link del wg0" ++ nl);
                     System "ip link del wg0";
                     PopenR "ip rule show";
                     Stdout ("[#] ndc network destroy 4660" ++ nl);
                     PopenR "ndc network destroy 4660"]).
Proof. vm_compute. reflexivity. Qed.

(** C4, amended.  On the way down, once [ip link del] has succeeded, the
    program reads [ip rule show]; if a line matches the rule pattern of the
    interface, it calls ndc to destroy the network whose id is the
    hexadecimal number of the first such line, and ends with status 0 if
    ndc accepts; if no line matches, it runs no further command and ends
    with status 0. *)
Theorem cmd_down_network (w : world) (iface : string) (s : pstate)
        (status status' : Z) (interfaces rules : string) :
  Rx.regex_iface iface = true ->
  is_exiting s = false ->
  let c := "ip link del " ++ iface in
  let s1 := push s [PopenR "wg show interfaces"; Stdout ("[#] " ++ c ++ nl)] in
  let s2 := push s1 [System c; PopenR "ip rule show"] in
  run w (trace s) "wg show interfaces" = Spawned status interfaces ->
  In iface (listed_interfaces interfaces) ->
  system_status w (trace s1) c = 0 ->
  run w (trace s1 ++ [System c]) "ip rule show" = Spawned status' rules ->
  match first_rule iface (CStr.getlines rules) with
  | Some netid =>
      cmd_down w iface s =
      (cndc w ("network destroy " ++ CStr.fmt_u (strtoul16 w netid)) ;; exit 0)
        s2
  | None => cmd_down w iface s = Exit 0 s2
  end.
Proof.
  intros Hi Hx c s1 s2 Hrun Hin Hdel Hrules.
  assert (F : match CStr.getlines interfaces with
              | [] => false
              | ifaces :: _ =>
                  existsb (String.eqb iface)
                          (CStr.strtok_all (String " " nl) ifaces)
              end = true).
  { unfold listed_interfaces in Hin.
    destruct (CStr.getlines interfaces); [destruct Hin|].
    apply existsb_exists. exists iface. split; [exact Hin|].
    apply String.eqb_refl. }
  assert (E : cmd_down w iface s =
              (del_if w iface ;; exit 0) (push s [PopenR "wg show interfaces"])).
  { unfold cmd_down. unfold bind at 1.
    rewrite cmd_ret_eq by reflexivity. rewrite Hrun. rewrite F. reflexivity. }
  assert (D : (del_if w iface ;; exit 0) (push s [PopenR "wg show interfaces"])
              = match first_rule iface (CStr.getlines rules) with
                | Some netid =>
                    (cndc w ("network destroy " ++
                             CStr.fmt_u (strtoul16 w netid)) ;; exit 0) s2
                | None => Exit 0 s2 : res unit
                end).
  { unfold bind at 1. rewrite del_if_eq by exact Hi.
    cbv zeta. simpl is_exiting. rewrite Hx.
    replace (trace (push s [PopenR "wg show interfaces"]) ++
             [Stdout ("[#] " ++ ("ip link del " ++ iface) ++ nl)])%list
      with (trace s1)
      by (unfold s1; simpl; rewrite <- app_assoc; reflexivity).
    fold c. rewrite Hdel. change (negb (0 =? 0) && negb false) with false.
    cbv iota.
    replace (trace (push (push s [PopenR "wg show interfaces"])
                         [Stdout ("[#] " ++ c ++ nl); System c]))
      with (trace s1 ++ [System c])%list
      by (unfold s1; simpl; rewrite <- !app_assoc; reflexivity).
    rewrite Hrules.
    destruct (first_rule iface (CStr.getlines rules)) as [netid|].
    - unfold bind, s2, s1. rewrite !push_push. reflexivity.
    - unfold s2, s1. rewrite !push_push. reflexivity. }
  destruct (first_rule iface (CStr.getlines rules)) as [netid|];
    rewrite E, D; reflexivity.
Qed.

(** [world_bound] again: the rule of [wg0] names network 0x1234. *)
Lemma cmd_down_network_witness :
  cmd_down world_bound "wg0" initial =
  (cndc world_bound "network destroy 4660" ;; exit 0)
    (push initial [PopenR "wg show interfaces";
                   Stdout ("[#] ip link del wg0" ++ nl);
                   System "ip link del wg0";
                   PopenR "ip rule show"]).
Proof.
  apply (cmd_down_network world_bound "wg0" initial 0 0 ("wg0" ++ nl)
           ("0: from all lookup local" ++ nl ++
            "13000: from all fwmark 0xc1234/0xcffff lookup wg0" ++ nl)).
  - reflexivity.
  - reflexivity.
  - reflexivity.
  - vm_compute. left. reflexivity.
  - reflexivity.
  - reflexivity.
Defined.

(* ================================================================== *)
(** * Tokens *)
(* ================================================================== *)

Section Tokens.
Variable delims : string.

Lemma strtok_all_total_length (s : string) :
  (total_length (CStr.strtok_all delims s) <= String.length s)%nat.
Proof.
  induction s as [|c r IH]; simpl; [lia|].
  destruct (CStr.mem c delims); [lia|].
  destruct r as [|c' r']; [simpl; lia|].
  destruct (CStr.mem c' delims); [simpl in *; lia|].
  destruct (CStr.strtok_all delims (String c' r')); simpl in *; lia.
Qed.

(** A string without delimiters is its own single token. *)
Lemma strtok_all_plain (s : string) :
  s <> EmptyString -> CStr.all (CStr.non_delim delims) s = true ->
  CStr.strtok_all delims s = [s].
Proof.
  induction s as [|c r IH]; intros Hne Hall; [congruence|].
  simpl in Hall. apply andb_prop in Hall. destruct Hall as [Hc Hr].
  unfold CStr.non_delim in Hc. apply negb_true_iff in Hc.
  simpl. rewrite Hc.
  destruct r as [|c' r']; [reflexivity|].
  assert (Hc' : CStr.mem c' delims = false).
  { simpl in Hr. apply andb_prop in Hr. destruct Hr as [Hr _].
    unfold CStr.non_delim in Hr. apply negb_true_iff in Hr. exact Hr. }
  rewrite Hc'. rewrite IH; [reflexivity | discriminate | exact Hr].
Qed.

(** A delimiter in the string costs the tokens at least one character. *)
Lemma strtok_all_delimited (s : string) :
  CStr.all (CStr.non_delim delims) s = false ->
  (total_length (CStr.strtok_all delims s) < String.length s)%nat.
Proof.
  induction s as [|c r IH]; intros Hall; [discriminate|].
  simpl in Hall. simpl.
  pose proof (strtok_all_total_length r) as Hle.
  unfold CStr.non_delim in Hall at 1.
  destruct (CStr.mem c delims); simpl in Hall; [lia|].
  specialize (IH Hall).
  destruct r as [|c' r']; [discriminate|].
  destruct (CStr.mem c' delims); [simpl in *; lia|].
  destruct (CStr.strtok_all delims (String c' r')); simpl in *; lia.
Qed.

End Tokens.

Lemma total_length_in (t : string) (l : list string) :
  In t l -> (String.length t <= total_length l)%nat.
Proof.
  induction l as [|x l IH]; intros H; [destruct H|].
  destruct H as [->|H]; simpl; [lia|]. specialize (IH H). lia.
Qed.

(* ================================================================== *)
(** * The DNS list *)
(* ================================================================== *)

Lemma concat_nosep_cons (x : string) (xs : list string) :
  String.concat "" (x :: xs) = x ++ String.concat "" xs.
Proof.
  destruct xs as [|y ys]; simpl; [now rewrite append_nil_r | reflexivity].
Qed.

Lemma quoted_space (t : string) : "'" ++ t ++ "' " = quoted t ++ " ".
Proof. unfold quoted. simpl. rewrite append_assoc. reflexivity. Qed.

Lemma quoted_length (t : string) :
  String.length (quoted t) = (String.length t + 2)%nat.
Proof. unfold quoted. simpl. rewrite length_append. simpl. lia. Qed.

(** One turn of the loop of [set_dnses] on an entry shorter than the whole
    list: nothing is cut. *)
Lemma dns_step_short (len : nat) (acc t : string) :
  has_quote_or_backslash t = false ->
  (String.length t < len)%nat ->
  dns_step len acc t = acc ++ quoted t ++ " ".
Proof.
  intros E Ht. unfold dns_step. rewrite E. rewrite quoted_space.
  assert (L : String.length (quoted t ++ " ") = (String.length t + 3)%nat).
  { rewrite length_append, quoted_length. simpl. lia. }
  rewrite (take_all (len + 2)) by lia.
  rewrite take_all by lia. reflexivity.
Qed.

Lemma dns_fold_short (len : nat) (ts : list string) : forall acc,
  (forall t, In t ts -> (String.length t < len)%nat) ->
  fold_left (dns_step len) ts acc =
  acc ++ String.concat ""
           (List.map (fun t => quoted t ++ " ")
              (List.filter (fun t => negb (has_quote_or_backslash t)) ts)).
Proof.
  induction ts as [|t ts IH]; intros acc Hshort.
  - simpl. now rewrite append_nil_r.
  - cbn [fold_left List.filter].
    rewrite IH by (intros u Hu; apply Hshort; right; exact Hu).
    destruct (has_quote_or_backslash t) eqn:E; cbn [negb List.map].
    + unfold dns_step. rewrite E. reflexivity.
    + rewrite dns_step_short; [|exact E | apply Hshort; left; reflexivity].
      rewrite concat_nosep_cons. rewrite !append_assoc. reflexivity.
Qed.

Lemma concat_quoted_spaced (ts : list string) :
  ts <> [] ->
  String.concat "" (List.map (fun t => quoted t ++ " ") ts) =
  String.concat " " (List.map quoted ts) ++ " ".
Proof.
  induction ts as [|t ts IH]; intros Hne; [congruence|].
  destruct ts as [|t' ts'].
  - reflexivity.
  - cbn [List.map] in *. rewrite concat_nosep_cons.
    rewrite IH by discriminate.
    change (String.concat " " (quoted t :: quoted t' :: List.map quoted ts'))
      with (quoted t ++ " " ++
            String.concat " " (quoted t' :: List.map quoted ts')).
    rewrite !append_assoc. reflexivity.
Qed.

(** The loop of [set_dnses] in closed form. *)
Lemma set_dnses_arglist (w : world) (netid : Z) (dnses : string)
      (s : pstate) :
  set_dnses w netid dnses s =
  match sanitized dnses with
  | [] => Ret tt s
  | kept =>
      cndc w ("resolver setnetdns " ++ CStr.fmt_u netid ++ " '' " ++
              String.concat " " (List.map quoted kept) ++
              (if list_eq_dec string_dec kept [dnses] then "" else " "))
           s
  end.
Proof.
  unfold set_dnses, sanitized.
  destruct dnses as [|c r] eqn:Ed; [reflexivity|].
  rewrite <- Ed.
  assert (Hlen : (String.length dnses =? 0)%nat = false)
    by (rewrite Ed; reflexivity).
  rewrite Hlen.
  set (len := String.length dnses).
  assert (Hpos : (1 <= len)%nat) by (unfold len; rewrite Ed; simpl; lia).
  destruct (CStr.all (CStr.non_delim list_delims) dnses) eqn:Hall.
  - (* a single entry: the space after it does not fit [arg] *)
    rewrite (strtok_all_plain list_delims dnses) by (rewrite ?Ed; congruence).
    cbn [fold_left List.filter]. unfold dns_step.
    destruct (has_quote_or_backslash dnses) eqn:Eq; cbn [negb].
    + reflexivity.
    + assert (L : String.length (quoted dnses) = (len + 2)%nat)
        by apply quoted_length.
      rewrite quoted_space, <- L, take_app_exact.
      rewrite take_all by lia.
      change ("" ++ quoted dnses) with (quoted dnses).
      assert (N : (String.length (quoted dnses) =? 0)%nat = false)
        by (rewrite L; apply Nat.eqb_neq; lia).
      rewrite N.
      destruct (list_eq_dec string_dec [dnses] [dnses]) as [_|C];
        [|congruence].
      simpl String.concat. rewrite append_nil_r. reflexivity.
  - (* delimiters: every entry is shorter than the list *)
    pose proof (strtok_all_delimited list_delims dnses Hall) as Hlt.
    rewrite dns_fold_short.
    2:{ intros t Ht. apply total_length_in in Ht. fold len in Hlt. lia. }
    set (kept := List.filter _ (CStr.strtok_all list_delims dnses)).
    change ("" ++ String.concat "" (List.map (fun t => quoted t ++ " ") kept))
      with (String.concat "" (List.map (fun t => quoted t ++ " ") kept)).
    assert (Hk : forall t, In t kept -> (String.length t < len)%nat).
    { intros t Ht. unfold kept in Ht. apply filter_In in Ht.
      destruct Ht as [Ht _]. apply total_length_in in Ht.
      fold len in Hlt. lia. }
    destruct kept as [|t ts] eqn:Ek; [reflexivity|].
    rewrite concat_quoted_spaced by discriminate.
    assert (N : (String.length
                   (String.concat " " (List.map quoted (t :: ts)) ++ " ")
                 =? 0)%nat = false).
    { apply Nat.eqb_neq. rewrite length_append. simpl. lia. }
    rewrite N.
    destruct (list_eq_dec string_dec (t :: ts) [dnses]) as [C|_];
      [|reflexivity].
    exfalso. injection C as Ct Cts.
    specialize (Hk t (or_introl eq_refl)). rewrite Ct in Hk.
    unfold len in Hk. lia.
Qed.

(** The test of the code against the characters of the entry. *)
Lemma has_quote_or_backslash_plain (t : string) :
  has_quote_or_backslash t = negb (CStr.all plain_char t).
Proof.
  unfold has_quote_or_backslash, CStr.has_char.
  induction t as [|c r IH]; [reflexivity|].
  cbn [CStr.mem CStr.all]. unfold plain_char at 1.
  rewrite (Ascii.eqb_sym c "'"), (Ascii.eqb_sym c "\").
  destruct (Ascii.eqb "'" c), (Ascii.eqb "\" c); cbn [negb andb orb];
    rewrite ?orb_true_r; try reflexivity.
  exact IH.
Qed.

Lemma sanitized_kept (entries : string) :
  sanitized entries = kept_entries entries.
Proof.
  unfold sanitized, kept_entries. apply filter_ext. intros t.
  rewrite has_quote_or_backslash_plain. apply negb_involutive.
Qed.

(** A call of ndc that is taken returns, leaving its two events. *)
Lemma cndc_taken (w : world) (c : string) (s : pstate) :
  too_long ("ndc " ++ c) = false ->
  ndc_takes w (trace s) c = true ->
  cndc w c s = Ret tt (push s (ndc_call c)).
Proof.
  intros Hl Ht. rewrite (cndc_eq w c s Hl). cbv zeta.
  unfold ndc_takes in Ht. cbn [trace push].
  destruct (run w _ ("ndc " ++ c)) as [e|st out]; [discriminate|].
  destruct (CStr.getlines out) as [|r rest]; [discriminate|].
  rewrite Ht. rewrite push_push. reflexivity.
Qed.

(** C7. [set_dnses] drops the entries of the list that hold a single quote
    or a backslash and keeps the others in their order.  When the list is
    empty or no entry is left, it runs no command: the state is as it was.
    Otherwise it runs one command, [ndc resolver setnetdns NETID ''] with
    one argument list: each kept entry between single quotes, the entries
    joined by spaces (a space also follows the last one unless the list is
    a single entry without delimiters).  The command is the one ndc is
    asked; here it fits the command buffer and ndc takes it. *)
Theorem set_dnses_sanitized (w : world) (netid : Z) (dnses : string)
        (s : pstate) :
  let kept := kept_entries dnses in
  let c := "resolver setnetdns " ++ CStr.fmt_u netid ++ " '' " ++
           String.concat " " (List.map quoted kept) ++
           (if list_eq_dec string_dec kept [dnses] then "" else " ") in
  (kept = [] -> set_dnses w netid dnses s = Ret tt s)
  /\
  (kept <> [] ->
   too_long ("ndc " ++ c) = false ->
   ndc_takes w (trace s) c = true ->
   set_dnses w netid dnses s = Ret tt (push s (ndc_call c))).
Proof.
  intros kept c. rewrite set_dnses_arglist, sanitized_kept.
  fold kept. split.
  - intros ->. reflexivity.
  - intros Hk Hl Ht. destruct kept as [|t ts] eqn:Ek; [congruence|].
    apply cndc_taken; assumption.
Qed.

(** The list [8.8.8.8, 8'8 1.1.1.1] gives the two entries around the
    middle one; the list [8'8 9\9] gives no command. *)
Lemma set_dnses_sanitized_witness :
  set_dnses world_plain 4660 "8'8 9\9" initial = Ret tt initial /\
  set_dnses world_plain 4660 "8.8.8.8, 8'8 1.1.1.1" initial =
  Ret tt
    (push initial
       [Stdout ("[#] ndc resolver setnetdns 4660 '' '8.8.8.8' '1.1.1.1' " ++ nl);
        PopenR "ndc resolver setnetdns 4660 '' '8.8.8.8' '1.1.1.1' "]).
Proof.
  split.
  - apply (proj1 (set_dnses_sanitized world_plain 4660 "8'8 9\9" initial)).
    reflexivity.
  - apply (proj2 (set_dnses_sanitized world_plain 4660
                    "8.8.8.8, 8'8 1.1.1.1" initial)).
    + discriminate.
    + reflexivity.
    + reflexivity.
Defined.

(* ================================================================== *)
(** * Loading the configuration *)
(* ================================================================== *)

Section Loading.
Import CStr Config ConfigSpec.

Lemma starts_with_bracket_eqb (c : ascii) (r : string) :
  starts_with_bracket (String c r) = Ascii.eqb c "[".
Proof.
  destruct c as [b0 b1 b2 b3 b4 b5 b6 b7].
  destruct b0, b1, b2, b3, b4, b5, b6, b7; reflexivity.
Qed.

(** One turn of the loop, by the kind of its line. *)
Lemma parse_line_kind (o : Config.t) (line : string) :
  let sec := section_of (in_interface_section o) line in
  parse_line o line =
  match classify sec line with
  | Address v =>
      {| config := config o; mtu := mtu o;
         addrs := concat_and_free (addrs o) "," v;
         dnses := dnses o; in_interface_section := sec |}
  | Dns v =>
      {| config := config o; mtu := mtu o; addrs := addrs o;
         dnses := concat_and_free (dnses o) "," v;
         in_interface_section := sec |}
  | Mtu v =>
      {| config := config o; mtu := to_uint (atoi v);
         addrs := addrs o; dnses := dnses o; in_interface_section := sec |}
  | Other =>
      {| config := concat_and_free (config o) "" line; mtu := mtu o;
         addrs := addrs o; dnses := dnses o; in_interface_section := sec |}
  end.
Proof.
  cbv zeta. unfold parse_line, classify, section_of, value_of,
              is_interface_header, is_header.
  set (clean := clean_of line).
  change (String.length "Address=") with 8%nat.
  change (String.length "DNS=") with 4%nat.
  change (String.length "MTU=") with 4%nat.
  destruct (strcaseeq clean "[Interface]") eqn:EI.
  - cbn [andb].
    destruct (strncaseeq 8 clean "Address=" && (8 <? String.length clean)%nat);
      [reflexivity|].
    destruct (strncaseeq 4 clean "DNS=" && (4 <? String.length clean)%nat);
      [reflexivity|].
    destruct (strncaseeq 4 clean "MTU=" && (4 <? String.length clean)%nat);
      reflexivity.
  - destruct (if starts_with_bracket clean then false
              else in_interface_section o) eqn:ES; cbn [andb]; [|reflexivity].
    destruct (strncaseeq 8 clean "Address=" && (8 <? String.length clean)%nat);
      [reflexivity|].
    destruct (strncaseeq 4 clean "DNS=" && (4 <? String.length clean)%nat);
      [reflexivity|].
    destruct (strncaseeq 4 clean "MTU=" && (4 <? String.length clean)%nat);
      reflexivity.
Qed.

Lemma concat_sep_merge (delim a l : string) (r : list string) :
  String.concat delim ((a ++ delim ++ l) :: r) =
  a ++ delim ++ String.concat delim (l :: r).
Proof.
  destruct r as [|x xs]; [reflexivity|].
  change (String.concat delim ((a ++ delim ++ l) :: x :: xs))
    with ((a ++ delim ++ l) ++ delim ++ String.concat delim (x :: xs)).
  change (String.concat delim (l :: x :: xs))
    with (l ++ delim ++ String.concat delim (x :: xs)).
  rewrite !append_assoc. reflexivity.
Qed.

Lemma append_all_some (o delim : string) (ls : list string) :
  or_empty (append_all (Some o) delim ls) = String.concat delim (o :: ls).
Proof.
  revert o. induction ls as [|l r IH]; intros o; [reflexivity|].
  cbn [append_all concat_and_free]. rewrite IH.
  rewrite concat_sep_merge. reflexivity.
Qed.

Lemma append_all_none (delim : string) (ls : list string) :
  or_empty (append_all None delim ls) = String.concat delim ls.
Proof.
  destruct ls as [|l r]; [reflexivity|].
  cbn [append_all concat_and_free]. apply append_all_some.
Qed.

(** The loop, from any state it may be in. *)
Lemma parse_lines_from (lines : list string) : forall o : Config.t,
  let ks := kinds (in_interface_section o) lines in
  fold_left parse_line lines o =
  {| config := append_all (config o) "" (body_lines ks);
     mtu := mtu_value (mtu o) ks;
     addrs := append_all (addrs o) "," (address_values ks);
     dnses := append_all (dnses o) "," (dns_values ks);
     in_interface_section :=
       fold_left section_of lines (in_interface_section o) |}.
Proof.
  induction lines as [|l r IH]; intros o.
  - destruct o; reflexivity.
  - cbn [fold_left kinds]. cbv zeta. rewrite IH. cbv zeta.
    rewrite parse_line_kind. cbv zeta.
    destruct (classify (section_of (in_interface_section o) l) l);
      reflexivity.
Qed.

Lemma getlines_nil (s : string) : getlines s = [] -> s = EmptyString.
Proof.
  destruct s as [|c r]; [reflexivity|]. simpl.
  destruct (Ascii.eqb c newline); [discriminate|].
  destruct (getlines r); discriminate.
Qed.

(** The lines of a file, put together again, are the file. *)
Lemma getlines_concat (s : string) : String.concat "" (getlines s) = s.
Proof.
  induction s as [|c r IH]; [reflexivity|]. simpl getlines.
  destruct (Ascii.eqb c newline).
  - rewrite concat_nosep_cons, IH. reflexivity.
  - destruct (getlines r) as [|l ls] eqn:E.
    + apply getlines_nil in E. subst. reflexivity.
    + rewrite concat_nosep_cons. rewrite concat_nosep_cons in IH.
      simpl. rewrite IH. reflexivity.
Qed.

Lemma interface_header_is_header (l : string) :
  is_interface_header l = true -> is_header l = true.
Proof.
  unfold is_interface_header, is_header, strcaseeq. intros H.
  apply String.eqb_eq in H.
  destruct (clean_of l) as [|c r]; [discriminate|].
  rewrite starts_with_bracket_eqb.
  simpl in H. injection H as Hc _.
  destruct c as [b0 b1 b2 b3 b4 b5 b6 b7].
  destruct b0, b1, b2, b3, b4, b5, b6, b7;
    try reflexivity; vm_compute in Hc; discriminate Hc.
Qed.

Lemma fold_section_of_snoc (lines : list string) (l : string) (b : bool) :
  fold_left section_of (lines ++ [l]) b =
  section_of (fold_left section_of lines b) l.
Proof. rewrite fold_left_app. reflexivity. Qed.

(** The flag of the loop is set exactly in the [Interface] sections. *)
Lemma section_flag_sound (lines : list string) :
  fold_left section_of lines false = true ->
  ends_in_interface_section lines.
Proof.
  induction lines as [|x xs IH] using rev_ind; [discriminate|].
  rewrite fold_section_of_snoc. unfold section_of at 1.
  destruct (is_interface_header x) eqn:EI.
  - intros _. exists xs, x, []. repeat split; auto.
  - destruct (is_header x) eqn:EH; [discriminate|].
    intros H. destruct (IH H) as [a [h [c [-> [Hh Hc]]]]].
    exists a, h, (c ++ [x])%list. repeat split; auto.
    + rewrite <- app_assoc. reflexivity.
    + apply Forall_app. split; [exact Hc|]. constructor; [exact EH|constructor].
Qed.

Lemma section_flag_complete (lines : list string) :
  ends_in_interface_section lines ->
  fold_left section_of lines false = true.
Proof.
  intros [a [h [c [-> [Hh Hc]]]]].
  rewrite fold_left_app. cbn [fold_left].
  unfold section_of at 2. rewrite Hh.
  clear Hh. induction c as [|x c IH]; [reflexivity|].
  inversion Hc as [|? ? Hx Hc']; subst.
  cbn [fold_left]. unfold section_of at 2.
  destruct (is_interface_header x) eqn:EI.
  - apply interface_header_is_header in EI. congruence.
  - rewrite Hx. apply IH. exact Hc'.
Qed.

Lemma kinds_in (lines : list string) : forall b k l,
  In (k, l) (kinds b lines) ->
  exists above below,
    lines = (above ++ l :: below)%list /\
    k = classify (fold_left section_of (above ++ [l]) b) l.
Proof.
  induction lines as [|x xs IH]; intros b k l H; [destruct H|].
  cbn [kinds] in H. destruct H as [H|H].
  - injection H as Hk Hl. subst. exists [], xs. split; reflexivity.
  - destruct (IH _ _ _ H) as [a [c [-> Hk]]].
    exists (x :: a), c. split; [reflexivity|]. exact Hk.
Qed.

(** C8, as stated, fails: in [two_sections] the second [Address=] line
    stands in an [Interface] section that is not the leading one (a
    [Peer] section lies in between), and it is merged all the same, as is
    the [DNS=] line after it. *)
Lemma second_interface_section_merged :
  parse_options two_sections =
  ("[Interface]" ++ nl ++
   "[Peer]" ++ nl ++
   "AllowedIPs = 0.0.0.0/0" ++ nl ++
   "[Interface]" ++ nl,
   0, "10.0.0.1/24,10.0.0.2/24", "1.1.1.1").
Proof. vm_compute. reflexivity. Qed.

(** C8, amended.  The loader merges the [Address=] and [DNS=] lines that
    have a value and stand in an [Interface] section, whichever section of
    the file that is: their values, joined by commas in the order of the
    file.  The MTU is the value of the last such [MTU=] line, 0 without
    one.  Every other line goes to the tunnel configuration as it is, in
    the order of the file, the lines that open a section among them (the
    lines of a file, put together, are the file); a line is merged only
    when the last line at or above it that starts with a bracket is
    [[Interface]]. *)
Theorem parse_options_sections (file : string) :
  let ks := kinds false (getlines file) in
  parse_options file =
  (String.concat "" (body_lines ks),
   mtu_value 0 ks,
   String.concat "," (address_values ks),
   String.concat "," (dns_values ks))
  /\ String.concat "" (getlines file) = file
  /\ (forall k l,
         In (k, l) ks -> k <> Other ->
         exists above below,
           getlines file = (above ++ l :: below)%list /\
           ends_in_interface_section (above ++ [l])).
Proof.
  cbv zeta. split; [|split; [apply getlines_concat|]].
  - unfold parse_options, parse_lines.
    rewrite parse_lines_from. cbv zeta. cbn [config mtu addrs dnses empty
      in_interface_section].
    rewrite !append_all_none. reflexivity.
  - intros k l Hin Hk.
    destruct (kinds_in _ _ _ _ Hin) as [a [c [E Ek]]].
    exists a, c. split; [exact E|].
    apply section_flag_sound.
    destruct (fold_left section_of (a ++ [l]) false); [reflexivity|].
    subst k. contradiction Hk. reflexivity.
Qed.

(** In [two_sections] the second address line is merged, and it stands in
    the second [Interface] section. *)
Lemma parse_options_sections_witness :
  exists above below,
    getlines two_sections =
      (above ++ ("Address = 10.0.0.2/24" ++ nl)%string :: below)%list /\
    ends_in_interface_section
      (above ++ [("Address = 10.0.0.2/24" ++ nl)%string])%list.
Proof.
  apply (proj2 (proj2 (parse_options_sections two_sections))
               (Address "10.0.0.2/24")).
  - vm_compute. do 5 right. left. reflexivity.
  - discriminate.
Defined.

(** ** White space and letter case *)








(** A line whose clean copy starts, in lower case, with a character other
    than a bracket opens no section and closes none. *)
Lemma not_a_header (clean rest : string) (n : nat) (k : ascii) :
  CStr.map tolower (take (S n) clean) = String k rest ->
  k <> "["%char ->
  starts_with_bracket clean = false /\ strcaseeq clean "[Interface]" = false.
Proof.
  intros H Hk. destruct clean as [|c r]; [discriminate|].
  simpl in H. injection H as Hc _.
  rewrite starts_with_bracket_eqb. split.
  - apply Ascii.eqb_neq. intros ->. apply Hk. rewrite <- Hc. reflexivity.
  - unfold strcaseeq.
    change (CStr.map tolower (String c r))
      with (String (tolower c) (CStr.map tolower r)).
    change (CStr.map tolower "[Interface]") with "[interface]".
    cbn [String.eqb]. rewrite Hc.
    apply Ascii.eqb_neq in Hk. rewrite Hk. reflexivity.
Qed.

Lemma section_of_plain (b : bool) (line rest : string) (n : nat) (k : ascii) :
  CStr.map tolower (take (S n) (clean_of line)) = String k rest ->
  k <> "["%char ->
  section_of b line = b.
Proof.
  intros H Hk. destruct (not_a_header _ _ _ _ H Hk) as [H1 H2].
  unfold section_of, is_interface_header, is_header. rewrite H1, H2.
  reflexivity.
Qed.


Lemma value_of_mismatch (a c : ascii) (key line r : string) :
  clean_of line = String c r ->
  tolower c <> tolower a ->
  value_of (String a key) line = None.
Proof.
  intros E H. unfold value_of, strncaseeq, strcaseeq. rewrite E.
  cbn [String.length take CStr.map String.eqb].
  apply Ascii.eqb_neq in H. rewrite H. reflexivity.
Qed.

Lemma first_char (clean rest : string) (n : nat) (k : ascii) :
  CStr.map tolower (take (S n) clean) = String k rest ->
  exists c r, clean = String c r /\ tolower c = k.
Proof.
  destruct clean as [|c r]; [discriminate|]. simpl. intros H.
  injection H as Hc _. eauto.
Qed.



End Loading.




(* ================================================================== *)
(** * The MTU *)
(* ================================================================== *)

(** C2 fails on what wg(8) prints.  [wg show wg0 endpoints] prints a line
    per peer: the public key, a tab, the endpoint and a newline.  The
    endpoint pattern is anchored at both ends of the line as [getline]
    returns it, so it matches no such line and the peer is never sampled.
    In [world_peer_lines] the default route has MTU 1500 and the route to
    the peer 192.0.2.7 has MTU 1300 ([get_route_mtu] would return it): the
    least sample minus 80 is 1220, but [set_mtu] runs no [ip route get] and
    sets 1420. *)
Theorem set_mtu_misses_peers :
  let s1 := push initial [PopenR "ip -o route show default";
                          PopenR "wg show wg0 endpoints"] in
  run world_peer_lines [PopenR "ip -o route show default"]
      "wg show wg0 endpoints"
    = Spawned 0 ("cHVibGlj" ++ String CStr.tab "192.0.2.7:51820" ++ nl) /\
  get_route_mtu world_peer_lines "default" initial
    = Ret 1500 (push initial [PopenR "ip -o route show default"]) /\
  get_route_mtu world_peer_lines "192.0.2.7" s1
    = Ret 1300 (push s1 [PopenR "ip -o route get 192.0.2.7"]) /\
  set_mtu world_peer_lines "wg0" 0 initial
    = Ret tt (push s1 [Stdout ("[#] ndc interface setmtu wg0 1420" ++ nl);
                       PopenR "ndc interface setmtu wg0 1420"]).
Proof. cbv zeta. repeat split; vm_compute; reflexivity. Qed.

(* ================================================================== *)
(** * What the steps of [cmd_up] leave untouched *)
(* ================================================================== *)

Lemma frames_ret {A : Type} (a : A) : frames (ret a).
Proof. intros s. exists []. simpl. now rewrite push_nil. Qed.

Lemma frames_exit {A : Type} (c : Z) : frames (@exit A c).
Proof. intros s. exists []. simpl. now rewrite push_nil. Qed.

Lemma frames_spin {A : Type} : frames (@spin A).
Proof. intros s. exists []. simpl. now rewrite push_nil. Qed.

Lemma frames_log (e : event) : frames (log e).
Proof. intros s. exists [e]. reflexivity. Qed.

Lemma frames_get_trace : frames get_trace.
Proof. intros s. exists []. simpl. now rewrite push_nil. Qed.

Lemma frames_get_is_exiting : frames get_is_exiting.
Proof. intros s. exists []. simpl. now rewrite push_nil. Qed.

Lemma frames_bind {A B : Type} (m : M A) (k : A -> M B) :
  frames m -> (forall a, frames (k a)) -> frames (bind m k).
Proof.
  intros Hm Hk s. unfold bind. destruct (Hm s) as [evs E].
  destruct (m s) as [a s1|c s1|s1|g s1]; simpl in E; subst s1.
  - destruct (Hk a (push s evs)) as [evs' E']. exists (evs ++ evs')%list.
    rewrite E'. apply push_push.
  - exists evs. reflexivity.
  - exists evs. reflexivity.
  - exists evs. reflexivity.
Qed.

Lemma frames_for_each {A : Type} (f : A -> M unit) (l : list A) :
  (forall a, frames (f a)) -> frames (for_each f l).
Proof.
  intros Hf. induction l as [|a r IH]; cbn [for_each].
  - apply frames_ret.
  - apply frames_bind; [apply Hf | intros _; exact IH].
Qed.

Lemma frames_fold_m {A B : Type} (f : B -> A -> M B) (l : list A) :
  (forall b a, frames (f b a)) -> forall b, frames (fold_m f l b).
Proof.
  intros Hf. induction l as [|a r IH]; intros b; cbn [fold_m].
  - apply frames_ret.
  - apply frames_bind; [apply Hf | intros b'; apply IH].
Qed.

Create HintDb frames discriminated.
#[local] Hint Resolve frames_ret frames_exit frames_spin frames_log
  frames_get_trace frames_get_is_exiting : frames.

(** Follows the shape of a piece of the program. *)
Ltac frames_shape :=
  repeat first
    [ progress cbv zeta
    | apply frames_bind; [|intro]
    | apply frames_for_each; intro
    | apply frames_fold_m; intros
    | match goal with
      | |- frames (if ?b then _ else _) => destruct b
      | |- frames (match ?x with _ => _ end) => destruct x
      end
    | solve [auto with frames] ].

Section Frames.
Variable w : world.

Lemma frames_fail_too_long {A : Type} : frames (@fail_too_long w A).
Proof. unfold fail_too_long. frames_shape. Qed.
#[local] Hint Resolve frames_fail_too_long : frames.

Lemma frames_system (c : string) : frames (system w c).
Proof. unfold system. frames_shape. Qed.
#[local] Hint Resolve frames_system : frames.

Lemma frames_cmd (c : string) : frames (cmd w c).
Proof. unfold cmd. frames_shape. Qed.
#[local] Hint Resolve frames_cmd : frames.

Lemma frames_cmd_ret (c : string) : frames (cmd_ret w c).
Proof. unfold cmd_ret. frames_shape. Qed.
#[local] Hint Resolve frames_cmd_ret : frames.

Lemma frames_cndc (c : string) : frames (cndc w c).
Proof. unfold cndc. frames_shape. Qed.
#[local] Hint Resolve frames_cndc : frames.

Lemma frames_add_if (iface : string) : frames (add_if w iface).
Proof. unfold add_if. frames_shape. Qed.

Lemma frames_del_if (iface : string) : frames (del_if w iface).
Proof. unfold del_if. frames_shape. Qed.

Lemma frames_up_if (fuel : nat) (netid : Z) (iface : string) :
  frames (up_if w fuel netid iface).
Proof. unfold up_if. frames_shape. Qed.

Lemma frames_set_dnses (netid : Z) (dnses : string) :
  frames (set_dnses w netid dnses).
Proof. unfold set_dnses. frames_shape. Qed.

Lemma frames_add_addr (iface addr : string) : frames (add_addr w iface addr).
Proof. unfold add_addr. frames_shape. Qed.
#[local] Hint Resolve frames_add_addr : frames.

Lemma frames_set_addr (iface addrs : string) : frames (set_addr w iface addrs).
Proof. unfold set_addr. frames_shape. Qed.

Lemma frames_get_route_mtu (endpoint : string) :
  frames (get_route_mtu w endpoint).
Proof. unfold get_route_mtu. frames_shape. Qed.
#[local] Hint Resolve frames_get_route_mtu : frames.

Lemma frames_mtu_step (e : Z) (line : string) : frames (mtu_step w e line).
Proof. unfold mtu_step. frames_shape. Qed.
#[local] Hint Resolve frames_mtu_step : frames.

Lemma frames_set_mtu (iface : string) (mtu : Z) : frames (set_mtu w iface mtu).
Proof. unfold set_mtu. frames_shape. Qed.

Lemma frames_add_route (iface : string) (netid : Z) (route : string) :
  frames (add_route w iface netid route).
Proof. unfold add_route. frames_shape. Qed.
#[local] Hint Resolve frames_add_route : frames.

Lemma frames_set_routes (iface : string) (netid : Z) :
  frames (set_routes w iface netid).
Proof. unfold set_routes. frames_shape. Qed.

Lemma frames_set_config (iface config : string) :
  frames (set_config w iface config).
Proof. unfold set_config. frames_shape. Qed.

#[local] Hint Resolve frames_add_if frames_del_if frames_up_if frames_set_dnses
  frames_set_addr frames_set_mtu frames_set_routes frames_set_config : frames.

Lemma frames_cmd_up_work (fuel : nat) (iface config : string) (mtu : Z)
      (addrs dnses : string) :
  frames (cmd_up_work w fuel iface config mtu addrs dnses).
Proof. unfold cmd_up_work. frames_shape. Qed.

End Frames.

(* ================================================================== *)
(** * The exit handler *)
(* ================================================================== *)

Lemma halts_bind {A B : Type} (m : M A) (k : A -> M B) :
  halts m -> (forall a, halts (k a)) -> halts (bind m k).
Proof.
  intros Hm Hk s. unfold bind. specialize (Hm s).
  destruct (m s) as [a s1|c s1|s1|g s1];
    [apply Hk | exact I | exact Hm | exact Hm].
Qed.

Lemma halts_ret {A : Type} (a : A) : halts (ret a).
Proof. intros s. exact I. Qed.

Lemma halts_exit {A : Type} (c : Z) : halts (@exit A c).
Proof. intros s. exact I. Qed.

Lemma halts_log (e : event) : halts (log e).
Proof. intros s. exact I. Qed.

Lemma halts_get_trace : halts get_trace.
Proof. intros s. exact I. Qed.

Lemma halts_get_is_exiting : halts get_is_exiting.
Proof. intros s. exact I. Qed.

Create HintDb halts discriminated.
#[local] Hint Resolve halts_ret halts_exit halts_log halts_get_trace
  halts_get_is_exiting : halts.

Ltac halts_shape :=
  repeat first
    [ progress cbv zeta
    | apply halts_bind; [|intro]
    | match goal with
      | |- halts (if ?b then _ else _) => destruct b
      | |- halts (match ?x with _ => _ end) => destruct x
      end
    | solve [auto with halts] ].

Section ExitHandler.
Variable w : world.

Lemma halts_cmd (c : string) : halts (cmd w c).
Proof. unfold cmd, fail_too_long, system. halts_shape. Qed.

Lemma halts_cmd_ret (c : string) : halts (cmd_ret w c).
Proof. unfold cmd_ret, fail_too_long. halts_shape. Qed.
#[local] Hint Resolve halts_cmd halts_cmd_ret : halts.

Lemma halts_cndc (c : string) : halts (cndc w c).
Proof. unfold cndc. halts_shape. Qed.
#[local] Hint Resolve halts_cndc : halts.

(** An ndc call returns or exits, and only adds to the trace. *)
Lemma cndc_ends (c : string) (s : pstate) :
  exists evs,
    cndc w c s = Ret tt (push s evs) \/
    exists code, cndc w c s = Exit code (push s evs).
Proof.
  destruct (frames_cndc w c s) as [evs E]. exists evs.
  pose proof (halts_cndc c s) as H.
  destruct (cndc w c s) as [[] s1|code s1|s1|g s1]; simpl in E; subst.
  - left. reflexivity.
  - right. exists code. reflexivity.
  - destruct H.
  - destruct H.
Qed.

(** While the exit handler unwinds, [del_if] always runs [ip link del]. *)
Lemma del_if_unwinding (iface : string) (s : pstate) :
  Rx.regex_iface iface = true ->
  is_exiting s = true ->
  exists rest,
    let s' := push s (Stdout ("[#] ip link del " ++ iface ++ nl) ::
                      System ("ip link del " ++ iface) :: rest) in
    del_if w iface s = Ret tt s' \/
    exists code, del_if w iface s = Exit code s'.
Proof.
  intros Hi Hx. rewrite del_if_eq by exact Hi. cbv zeta.
  rewrite Hx, andb_false_r.
  destruct (run w _ "ip rule show") as [errno|st out].
  - exists [PopenR "ip rule show"; Perror "Error: popen"].
    right. exists errno. rewrite push_push. reflexivity.
  - destruct (first_rule iface (CStr.getlines out)) as [netid|].
    + destruct (cndc_ends ("network destroy " ++
                           CStr.fmt_u (strtoul16 w netid))
                          (push (push s [Stdout ("[#] " ++ ("ip link del " ++ iface) ++ nl);
                                         System ("ip link del " ++ iface)])
                                [PopenR "ip rule show"]))
        as [evs [E|[code E]]].
      * exists (PopenR "ip rule show" :: evs). left.
        rewrite E, !push_push. reflexivity.
      * exists (PopenR "ip rule show" :: evs). right. exists code.
        rewrite E, !push_push. reflexivity.
    + exists [PopenR "ip rule show"]. left. rewrite push_push. reflexivity.
Qed.

(** The exit handler with a pending interface: the process ends, and it
    has run [ip link del] on the interface first. *)
Lemma at_exit_pending (iface : string) (status : Z) (s : pstate) :
  Rx.regex_iface iface = true ->
  atexit_cleanup s = true ->
  cleanup_iface s = Some iface ->
  exists status' s' rest,
    at_exit w status s = Ended status' s' /\
    trace s' = (trace s ++
                Stdout ("[#] ip link del " ++ iface ++ nl) ::
                System ("ip link del " ++ iface) :: rest)%list.
Proof.
  intros Hi Ha Hc. unfold at_exit, cmd_up_cleanup. rewrite Ha.
  unfold bind at 1. unfold set_is_exiting at 1.
  unfold bind at 1. unfold get_cleanup_iface at 1.
  cbn [cleanup_iface]. rewrite Hc.
  match goal with
  | |- context [del_if w iface ?s0] =>
      destruct (del_if_unwinding iface s0 Hi eq_refl) as [rest [E|[code E]]];
      cbv zeta in E; rewrite E
  end.
  - exists status. eexists. exists rest. split; reflexivity.
  - exists code. eexists. exists rest. split; reflexivity.
Qed.

(** The exit handler with nothing pending runs no command. *)
Lemma at_exit_cleared (status : Z) (s : pstate) :
  atexit_cleanup s = true ->
  cleanup_iface s = None ->
  at_exit w status s = Ended status (completed s).
Proof.
  intros Ha Hc. unfold at_exit, cmd_up_cleanup. rewrite Ha.
  unfold bind, set_is_exiting, get_cleanup_iface. cbn [cleanup_iface].
  rewrite Hc. unfold ret, completed. simpl. rewrite Ha. reflexivity.
Qed.

End ExitHandler.

(* ================================================================== *)
(** * Bringing an interface up: the cleanup guarantee *)
(* ================================================================== *)

(** C1, as stated, fails: the intent is registered before the interface is
    created, not once its creation has succeeded.  In [world_no_module]
    [ip link add] fails (the interface never exists), the process ends with
    its status, and the exit handler finds [cleanup_iface] set and runs the
    teardown of [wg0]. *)
Lemma intent_registered_before_creation :
  cleanup_iface (registered "wg0" initial) = Some "wg0" /\
  system_status world_no_module
    [PopenR "ip link show dev wg0 2>/dev/null";
     Stdout ("[#] ip link add wg0 type wireguard" ++ nl)]
    "ip link add wg0 type wireguard" = 512 /\
  run_process world_no_module (cmd_up world_no_module 1 "wg0" "" 0 "" "")
              initial =
  Ended 512
    {| trace := [PopenR "ip link show dev wg0 2>/dev/null";
                 Stdout ("[#] ip link add wg0 type wireguard" ++ nl);
                 System "ip link add wg0 type wireguard";
                 Stdout ("[#] ip link del wg0" ++ nl);
                 System "ip link del wg0";
                 PopenR "ip rule show"];
       cleanup_iface := Some "wg0";
       is_exiting := true;
       atexit_cleanup := true |}.
Proof. repeat split; vm_compute; reflexivity. Qed.

(** C1, amended.  Once the probe has found no interface, [cmd_up] sets
    [cleanup_iface] and registers the exit handler before it creates the
    interface, and resets [cleanup_iface] right before [exit(0)].  Hence,
    when a step from the creation of the interface on ends the process by
    calling [exit], the exit handler runs [ip link del] on the interface
    before the process ends; when all steps return, the process ends with
    status 0 and the exit handler runs no command.  The other two cases
    are those of a process that does not reach [exit]: it stays in the loop
    of [up_if], or a signal ends it where it is, and no handler runs. *)
Theorem cmd_up_cleanup_guarantee (w : world) (fuel : nat)
        (iface config : string) (mtu : Z) (addrs dnses : string)
        (s : pstate) (status : Z) :
  Rx.regex_iface iface = true ->
  run w (trace s) ("ip link show dev " ++ iface ++ " 2>/dev/null")
    = Spawned status EmptyString ->
  let up := cmd_up w fuel iface config mtu addrs dnses in
  let work := cmd_up_work w fuel iface config mtu addrs dnses in
  up s = (work ;; set_cleanup_iface None ;; exit 0) (registered iface s)
  /\
  match work (registered iface s) with
  | Ret _ s' => run_process w up s = Ended 0 (completed s')
  | Exit _ s' =>
      cleanup_iface s' = Some iface /\
      exists status' s'' rest,
        run_process w up s = Ended status' s'' /\
        trace s'' = (trace s' ++
                     Stdout ("[#] ip link del " ++ iface ++ nl) ::
                     System ("ip link del " ++ iface) :: rest)%list
  | Spin s' => run_process w up s = Hangs s'
  | Kill signal s' => run_process w up s = Killed signal s'
  end.
Proof.
  intros Hi Hrun up work.
  pose proof (regex_iface_length _ Hi) as Hlen.
  assert (E : up s = (work ;; set_cleanup_iface None ;; exit 0)
                       (registered iface s)).
  { unfold up, cmd_up. unfold bind at 1.
    rewrite cmd_ret_eq by short_command. rewrite Hrun.
    reflexivity. }
  split; [exact E|].
  destruct (frames_cmd_up_work w fuel iface config mtu addrs dnses
              (registered iface s)) as [evs F].
  fold work in F.
  assert (R : run_process w up s =
              match work (registered iface s) with
              | Ret _ s' =>
                  at_exit w 0 {| trace := trace s'; cleanup_iface := None;
                                 is_exiting := is_exiting s';
                                 atexit_cleanup := atexit_cleanup s' |}
              | Exit code s' => at_exit w code s'
              | Spin s' => Hangs s'
              | Kill signal s' => Killed signal s'
              end).
  { unfold run_process. rewrite E. unfold bind.
    destruct (work (registered iface s)); reflexivity. }
  rewrite R. clear R E.
  destruct (work (registered iface s)) as [[] s'|code s'|s'|signal s'];
    simpl in F; subst s'.
  - rewrite at_exit_cleared by reflexivity. reflexivity.
  - split; [reflexivity|].
    apply at_exit_pending; [exact Hi | reflexivity | reflexivity].
  - reflexivity.
  - reflexivity.
Qed.

(** In [world_no_module] the first step fails and the exit handler deletes
    [wg0]. *)
Lemma cmd_up_cleanup_guarantee_witness :
  exists status' s'' rest,
    run_process world_no_module (cmd_up world_no_module 1 "wg0" "" 0 "" "")
                initial = Ended status' s'' /\
    trace s'' =
    ([PopenR "ip link show dev wg0 2>/dev/null";
      Stdout ("[#] ip link add wg0 type wireguard" ++ nl);
      System "ip link add wg0 type wireguard"] ++
     Stdout ("[#] ip link del wg0" ++ nl) ::
     System "ip link del wg0" :: rest)%list.
Proof.
  pose proof (proj2 (cmd_up_cleanup_guarantee world_no_module 1 "wg0" "" 0
                       "" "" initial 0 eq_refl eq_refl)) as H.
  cbv zeta in H.
  change (cmd_up_work world_no_module 1 "wg0" "" 0 "" ""
            (registered "wg0" initial))
    with (@Exit unit 512
            (push (registered "wg0" initial)
                  [Stdout ("[#] ip link add wg0 type wireguard" ++ nl);
                   System "ip link add wg0 type wireguard"])) in H.
  cbv iota beta in H. exact (proj2 H).
Defined.

(** The whole way up, on [wg0.conf] in a world where every command
    succeeds: the commands the process runs, and its status. *)
Example up_wg0 :
  exists s,
    up world_plain 1 "wg0" wg0_conf = Ended 0 s /\
    cleanup_iface s = None /\
    commands_of (trace s) =
    ["ip link show dev wg0 2>/dev/null";
     "ip link add wg0 type wireguard";
     "wg setconf wg0 /proc/self/fd/0";
     "ip -o route show default";
     "wg show wg0 endpoints";
     "ndc interface setmtu wg0 1420";
     "ndc interface setcfg wg0 '10.0.0.2' 24";
     "wg set wg0 fwmark 0x20000";
     "ndc interface setcfg wg0 up";
     "ndc network create 9028 vpn 1 1";
     "ndc network interface add 9028 wg0";
     "ndc network users add 9028 0-99999";
     "ndc resolver setnetdns 9028 '' '1.1.1.1'";
     "wg show wg0 allowed-ips";
     "ndc network route add 9028 wg0 0.0.0.0/0"].
Proof.
  eexists. split; [vm_compute; reflexivity|].
  split; vm_compute; reflexivity.
Qed.

(* ================================================================== *)
(** * The name of the configuration file *)
(* ================================================================== *)

Lemma eqb_length_false (a b : string) :
  String.length a <> String.length b -> String.eqb a b = false.
Proof.
  intros H. apply String.eqb_neq. intros ->. apply H. reflexivity.
Qed.

Lemma chop_suffix_app (suf a : string) :
  suf <> EmptyString -> Cli.chop_suffix suf (a ++ suf) = Some a.
Proof.
  intros Hs. induction a as [|c a IH].
  - simpl append. destruct suf as [|d suf']; [congruence|].
    cbn [Cli.chop_suffix]. rewrite String.eqb_refl. reflexivity.
  - change (String c a ++ suf) with (String c (a ++ suf)).
    cbn [Cli.chop_suffix].
    rewrite eqb_length_false
      by (simpl; rewrite length_append; destruct suf; [congruence|simpl; lia]).
    rewrite IH. reflexivity.
Qed.

Lemma chop_suffix_some (suf : string) : forall s a,
  Cli.chop_suffix suf s = Some a -> s = a ++ suf.
Proof.
  induction s as [|c r IH]; intros a H.
  - cbn [Cli.chop_suffix] in H.
    destruct (String.eqb "" suf) eqn:E; [|discriminate].
    apply String.eqb_eq in E. injection H as <-. exact E.
  - cbn [Cli.chop_suffix] in H.
    destruct (String.eqb (String c r) suf) eqn:E.
    + apply String.eqb_eq in E. injection H as <-. exact E.
    + destruct (Cli.chop_suffix suf r) as [a'|] eqn:Er; [|discriminate].
      injection H as <-. rewrite (IH a' eq_refl). reflexivity.
Qed.

Lemma all_app (p : ascii -> bool) (a b : string) :
  CStr.all p (a ++ b) = CStr.all p a && CStr.all p b.
Proof.
  induction a as [|c a IH]; [reflexivity|]. simpl. rewrite IH.
  apply andb_assoc.
Qed.

Lemma conf_at_cons (c : ascii) (r : string) :
  Cli.conf_at (String c r) =
  match Cli.chop_suffix ".conf" (if Ascii.eqb c "/" then r else String c r) with
  | Some g => if Rx.regex_iface g then Some g else None
  | None => None
  end.
Proof.
  destruct c as [b0 b1 b2 b3 b4 b5 b6 b7].
  destruct b0, b1, b2, b3, b4, b5, b6, b7; reflexivity.
Qed.

Lemma search_found {A : Type} (f : string -> option A) (s : string) (a : A) :
  Rx.search f s = Some a -> exists t, f t = Some a.
Proof.
  induction s as [|c r IH]; simpl.
  - destruct (f "") eqn:E; [intros H; injection H as <-; eauto | discriminate].
  - destruct (f (String c r)) eqn:E; [intros H; injection H as <-; eauto|].
    exact IH.
Qed.

(** The group of the file name pattern is an interface name. *)
Lemma regex_conf_sound (s iface : string) :
  Cli.regex_conf s = Some iface -> Rx.regex_iface iface = true.
Proof.
  intros H. apply search_found in H. destruct H as [t H].
  unfold Cli.conf_at in H.
  destruct (Cli.chop_suffix ".conf" _) as [g|]; [|discriminate].
  destruct (Rx.regex_iface g) eqn:E; [|discriminate].
  injection H as <-. exact E.
Qed.

Lemma regex_iface_no_slash (a b : string) :
  Rx.regex_iface (a ++ String "/" b) = false.
Proof.
  unfold Rx.regex_iface. rewrite all_app. simpl CStr.all.
  change (Rx.iface_char "/") with false.
  rewrite andb_false_r, andb_false_r. reflexivity.
Qed.

Lemma regex_iface_first (c : ascii) (r : string) :
  Rx.regex_iface (String c r) = true -> Ascii.eqb c "/" = false.
Proof.
  intros H. apply Ascii.eqb_neq. intros ->.
  pose proof (regex_iface_no_slash "" r) as N. simpl append in N.
  congruence.
Qed.

(** The name before [.conf], behind the last slash, is the interface. *)
Lemma regex_conf_basename (name : string) : forall dir,
  Rx.regex_iface name = true ->
  Cli.regex_conf (dir ++ String "/" (name ++ ".conf")) = Some name.
Proof.
  intros dir Hn. induction dir as [|c d IH].
  - unfold Cli.regex_conf. simpl append.
    cbn [Rx.search]. rewrite conf_at_cons. simpl Ascii.eqb. cbv iota.
    rewrite chop_suffix_app by discriminate. rewrite Hn. reflexivity.
  - unfold Cli.regex_conf.
    change (String c d ++ String "/" (name ++ ".conf"))
      with (String c (d ++ String "/" (name ++ ".conf"))).
    cbn [Rx.search]. rewrite conf_at_cons.
    assert (N : match Cli.chop_suffix ".conf"
                        (if Ascii.eqb c "/"
                         then d ++ String "/" (name ++ ".conf")
                         else String c (d ++ String "/" (name ++ ".conf")))
                with
                | Some g => if Rx.regex_iface g then Some g else None
                | None => None
                end = None).
    { destruct (Ascii.eqb c "/").
      - replace (d ++ String "/" (name ++ ".conf"))
          with ((d ++ String "/" name) ++ ".conf")
          by (rewrite append_assoc; reflexivity).
        rewrite chop_suffix_app by discriminate.
        rewrite regex_iface_no_slash. reflexivity.
      - replace (String c (d ++ String "/" (name ++ ".conf")))
          with ((String c d ++ String "/" name) ++ ".conf")
          by (rewrite append_assoc; reflexivity).
        rewrite chop_suffix_app by discriminate.
        rewrite regex_iface_no_slash. reflexivity. }
    rewrite N. exact IH.
Qed.

Lemma regex_iface_too_long (s : string) :
  (16 < String.length s)%nat -> Rx.regex_iface s = false.
Proof.
  intros H. unfold Rx.regex_iface.
  apply Nat.leb_gt in H. rewrite H. rewrite andb_false_r. reflexivity.
Qed.

(** Of a longer name only the last sixteen characters count. *)
Lemma regex_conf_last16 (g : string) : forall x,
  Rx.regex_iface g = true -> String.length g = 16%nat ->
  Cli.regex_conf (x ++ g ++ ".conf") = Some g.
Proof.
  intros x Hg Hlen. induction x as [|c x' IH].
  - simpl append. unfold Cli.regex_conf.
    destruct g as [|c0 g']; [discriminate|].
    change (String c0 g' ++ ".conf") with (String c0 (g' ++ ".conf")).
    cbn [Rx.search]. rewrite conf_at_cons.
    rewrite (regex_iface_first _ _ Hg).
    change (String c0 (g' ++ ".conf")) with (String c0 g' ++ ".conf").
    rewrite chop_suffix_app by discriminate. rewrite Hg. reflexivity.
  - unfold Cli.regex_conf.
    change (String c x' ++ g ++ ".conf") with (String c (x' ++ g ++ ".conf")).
    cbn [Rx.search]. rewrite conf_at_cons.
    destruct (Ascii.eqb c "/").
    + replace (x' ++ g ++ ".conf") with ((x' ++ g) ++ ".conf")
        by (rewrite append_assoc; reflexivity).
      rewrite chop_suffix_app by discriminate.
      destruct x' as [|c' x''].
      * simpl append. rewrite Hg. reflexivity.
      * rewrite regex_iface_too_long
          by (rewrite length_append; simpl; lia).
        rewrite append_assoc. exact IH.
    + replace (String c (x' ++ g ++ ".conf"))
        with ((String c x' ++ g) ++ ".conf")
        by (rewrite append_assoc; reflexivity).
      rewrite chop_suffix_app by discriminate.
      rewrite regex_iface_too_long
        by (rewrite length_append; simpl; lia).
      exact IH.
Qed.

Lemma search_none_tails {A : Type} (f : string -> option A) (s : string) :
  (forall a b, s = a ++ b -> f b = None) -> Rx.search f s = None.
Proof.
  induction s as [|c r IH]; intros H; simpl.
  - rewrite (H "" "" eq_refl). reflexivity.
  - rewrite (H "" (String c r) eq_refl). apply IH.
    intros a b E. apply (H (String c a) b). simpl. rewrite E. reflexivity.
Qed.

(** A name that does not end with [.conf] matches nowhere. *)
Lemma regex_conf_needs_suffix (s : string) :
  (forall x, s <> x ++ ".conf") -> Cli.regex_conf s = None.
Proof.
  intros H. apply search_none_tails. intros a b E.
  assert (Hb : forall t, (t = b \/ exists c, b = String c t) ->
                         Cli.chop_suffix ".conf" t = None).
  { intros t Ht. destruct (Cli.chop_suffix ".conf" t) as [g|] eqn:Eg;
      [|reflexivity].
    apply chop_suffix_some in Eg. exfalso.
    destruct Ht as [->|[c ->]].
    - apply (H (a ++ g)). rewrite E, Eg, append_assoc. reflexivity.
    - apply (H (a ++ String c g)). rewrite E, Eg, append_assoc. reflexivity. }
  destruct b as [|c r].
  - unfold Cli.conf_at. rewrite (Hb "") by (left; reflexivity). reflexivity.
  - rewrite conf_at_cons. destruct (Ascii.eqb c "/").
    + rewrite (Hb r) by (right; eauto). reflexivity.
    + rewrite (Hb (String c r)) by (left; reflexivity). reflexivity.
Qed.

(* ================================================================== *)
(** * The command line *)
(* ================================================================== *)

Section CommandLine.
Import Cli.
Variable h : host.
Variable w : world.

(** The state [parse_options] leaves when it has read a file of mode
    [st_mode]: a warning on the error stream when the file is open to
    others, nothing otherwise. *)
Lemma parse_options_opened (arg iface contents : string) (st_mode : Z)
      (s : pstate) :
  fopen h (filename_of h arg) = Opened st_mode contents ->
  regex_conf (filename_of h arg) = Some iface ->
  parse_options h arg s =
  let '(config, mtu, addrs, dnses) := Config.parse_options contents in
  Ret (iface, config, mtu, addrs, dnses)
      (if Z.land st_mode 7 =? 0 then s
       else push s [Stderr ("Warning: `" ++ filename_of h arg ++
                            "' is world accessible" ++ nl)]).
Proof.
  intros Hf Hr. unfold parse_options. cbv zeta. rewrite Hf, Hr.
  destruct (Config.parse_options contents) as [[[config mtu] addrs] dnses].
  destruct (Z.land st_mode 7 =? 0); reflexivity.
Qed.

Lemma filename_of_name (arg : string) :
  Rx.regex_iface arg = true -> (43 <= PATH_MAX h)%nat ->
  filename_of h arg = "/data/misc/wireguard/" ++ arg ++ ".conf".
Proof.
  intros Hi Hp. unfold filename_of. rewrite Hi.
  apply regex_iface_length in Hi. apply take_all.
  simpl. rewrite length_append. simpl. lia.
Qed.

Lemma filename_of_path (arg : string) :
  Rx.regex_iface arg = false -> (String.length arg <= PATH_MAX h)%nat ->
  filename_of h arg = arg.
Proof.
  intros Hi Hp. unfold filename_of. rewrite Hi. apply take_all. exact Hp.
Qed.

(** X1. [help], [--help] and [-h] print the usage text and end with
    status 0; every other command line that is not [up] or [down] with
    one argument prints the same text and ends with status 1.  Nothing
    else happens: no file is opened, no command is run. *)
Theorem main_usage (fuel : nat) (program : string) (args : list string) :
  let shown := push initial [Stdout (usage_text program)] in
  match args with
  | [a] =>
      main h w fuel program args =
      Process (Ended (if is_help a then 0 else 1) shown)
  | [verb; _] =>
      verb <> "up" -> verb <> "down" ->
      main h w fuel program args = Process (Ended 1 shown)
  | _ => main h w fuel program args = Process (Ended 1 shown)
  end.
Proof.
  cbv zeta. destruct args as [|a [|b [|c r]]]; try reflexivity.
  - unfold main. destruct (is_help a); reflexivity.
  - intros Hup Hdown. unfold main.
    apply String.eqb_neq in Hup, Hdown. rewrite Hup, Hdown. reflexivity.
Qed.

End CommandLine.

(** [wg-quick restart wg0] is no command. *)
Lemma main_usage_witness :
  Cli.main (Cli.host_of 0 []) world_plain 1 "wg-quick" ["restart"; "wg0"] =
  Cli.Process (Ended 1 (push initial [Stdout (Cli.usage_text "wg-quick")])).
Proof.
  apply (main_usage (Cli.host_of 0 []) world_plain 1 "wg-quick"
                    ["restart"; "wg0"]); discriminate.
Defined.

Section CommandLineUpDown.
Import Cli.
Variable h : host.
Variable w : world.

(** X2. Started by another user than root, [up] and [down] do nothing but
    print the notice and hand over to [su -p -c] with the same command
    line: the configuration is not opened and no command is run.  When
    [execvp] fails, the process ends with its [errno]. *)
Theorem main_elevates_first (fuel : nat) (program verb arg : string) :
  getuid h <> 0 ->
  verb = "up" \/ verb = "down" ->
  let s := push initial [Stdout ("[$] su -p -c wg-quick" ++ nl)] in
  let su := ["su"; "-p"; "-c"; program; verb; arg] in
  main h w fuel program [verb; arg] =
  match execvp_su h su with
  | None => Replaced su s
  | Some errno => Process (Ended errno s)
  end.
Proof.
  intros Hu Hv. cbv zeta. apply Z.eqb_neq in Hu.
  destruct Hv as [->| ->]; unfold main; cbn [String.eqb Ascii.eqb Bool.eqb];
    unfold auto_su; rewrite Hu; reflexivity.
Qed.

(** X3. As root, when the configuration file cannot be opened, [up] and
    [down] print the reason on the error stream and end with the [errno]
    of [fopen], whatever the name looks like; no command is run. *)
Theorem main_unopenable (fuel : nat) (program verb arg : string) (errno : Z) :
  getuid h = 0 ->
  verb = "up" \/ verb = "down" ->
  fopen h (filename_of h arg) = OpenFailed errno ->
  main h w fuel program [verb; arg] =
  Process
    (Ended errno
       (push initial
          [Stderr ("Error: Unable to open configuration file `" ++
                   filename_of h arg ++ "': " ++ strerror h errno ++ nl)])).
Proof.
  intros Hu Hv Hf. apply Z.eqb_eq in Hu.
  destruct Hv as [->| ->]; unfold main; cbn [String.eqb Ascii.eqb Bool.eqb];
    unfold auto_su; rewrite Hu; unfold run_process, bind at 1;
    unfold parse_options; cbv zeta; rewrite Hf; reflexivity.
Qed.

(** X4. A file that can be opened but whose name does not end with
    [.conf] is refused with status 77 before it is read. *)
Theorem parse_options_bad_name (arg : string) (s : pstate) :
  (forall errno, fopen h (filename_of h arg) <> OpenFailed errno) ->
  (forall x, filename_of h arg <> x ++ ".conf") ->
  parse_options h arg s =
  Exit 77
    (push s [Stderr ("Error: The config file must be a valid interface name, followed by .conf" ++ nl)]).
Proof.
  intros Hf Hx. unfold parse_options. cbv zeta.
  rewrite (regex_conf_needs_suffix _ Hx).
  destruct (fopen h (filename_of h arg)) as [e|e|m c];
    [exfalso; apply (Hf e); reflexivity | reflexivity | reflexivity].
Qed.

(** X5. Every interface name [parse_options] returns is one to sixteen
    characters of letters, digits and [_=+.-]. *)
Theorem parse_options_name_sound (arg iface config addrs dnses : string)
        (mtu : Z) (s s' : pstate) :
  parse_options h arg s = Ret (iface, config, mtu, addrs, dnses) s' ->
  Rx.regex_iface iface = true.
Proof.
  unfold parse_options. cbv zeta.
  destruct (fopen h (filename_of h arg)) as [e|e|m c]; [discriminate| |].
  - destruct (regex_conf (filename_of h arg)); discriminate.
  - destruct (regex_conf (filename_of h arg)) as [g|] eqn:E; [|discriminate].
    apply regex_conf_sound in E.
    destruct (Config.parse_options c) as [[[cf mt] ad] dn].
    unfold bind. destruct (negb (Z.land m 7 =? 0)); cbn;
      intros H; injection H as <- _ _ _ _ _; exact E.
Qed.

(** X6. Given an interface name, [parse_options] reads
    [/data/misc/wireguard/NAME.conf] and returns that very name with what
    the file holds; a file open to others only adds a warning. *)
Theorem parse_options_by_name (arg contents : string) (st_mode : Z)
        (s : pstate) :
  Rx.regex_iface arg = true ->
  (43 <= PATH_MAX h)%nat ->
  let filename := "/data/misc/wireguard/" ++ arg ++ ".conf" in
  fopen h filename = Opened st_mode contents ->
  parse_options h arg s =
  let '(config, mtu, addrs, dnses) := Config.parse_options contents in
  Ret (arg, config, mtu, addrs, dnses)
      (if Z.land st_mode 7 =? 0 then s
       else push s [Stderr ("Warning: `" ++ filename ++
                            "' is world accessible" ++ nl)]).
Proof.
  intros Hi Hp filename Hf.
  pose proof (filename_of_name h arg Hi Hp) as Hn. fold filename in Hn.
  rewrite <- Hn in Hf.
  rewrite (parse_options_opened h arg arg contents st_mode s Hf).
  - rewrite Hn. reflexivity.
  - rewrite Hn. unfold filename.
    apply (regex_conf_basename arg "/data/misc/wireguard" Hi).
Qed.

(** X7. Given a path [DIR/NAME.conf], the interface is [NAME]. *)
Theorem parse_options_by_path (dir name contents : string) (st_mode : Z)
        (s : pstate) :
  Rx.regex_iface name = true ->
  let arg := dir ++ String "/" (name ++ ".conf") in
  (String.length arg <= PATH_MAX h)%nat ->
  fopen h arg = Opened st_mode contents ->
  parse_options h arg s =
  let '(config, mtu, addrs, dnses) := Config.parse_options contents in
  Ret (name, config, mtu, addrs, dnses)
      (if Z.land st_mode 7 =? 0 then s
       else push s [Stderr ("Warning: `" ++ arg ++
                            "' is world accessible" ++ nl)]).
Proof.
  intros Hi arg Hp Hf.
  assert (Hn : filename_of h arg = arg).
  { apply (filename_of_path h); [apply regex_iface_no_slash | exact Hp]. }
  rewrite <- Hn in Hf.
  rewrite (parse_options_opened h arg name contents st_mode s Hf).
  - rewrite Hn. reflexivity.
  - rewrite Hn. apply regex_conf_basename. exact Hi.
Qed.

(** X8. A file name of more than sixteen characters before [.conf] is not
    refused: the interface is named by the last sixteen of them. *)
Theorem parse_options_long_name (x g contents : string) (st_mode : Z)
        (s : pstate) :
  Rx.regex_iface g = true ->
  String.length g = 16%nat ->
  x <> EmptyString ->
  let arg := x ++ g ++ ".conf" in
  (String.length arg <= PATH_MAX h)%nat ->
  fopen h arg = Opened st_mode contents ->
  parse_options h arg s =
  let '(config, mtu, addrs, dnses) := Config.parse_options contents in
  Ret (g, config, mtu, addrs, dnses)
      (if Z.land st_mode 7 =? 0 then s
       else push s [Stderr ("Warning: `" ++ arg ++
                            "' is world accessible" ++ nl)]).
Proof.
  intros Hg Hlen Hx arg Hp Hf.
  assert (Hn : filename_of h arg = arg).
  { apply (filename_of_path h); [|exact Hp].
    apply regex_iface_too_long. unfold arg.
    rewrite !length_append. destruct x; [congruence|simpl; lia]. }
  rewrite <- Hn in Hf.
  rewrite (parse_options_opened h arg g contents st_mode s Hf).
  - rewrite Hn. reflexivity.
  - rewrite Hn. apply regex_conf_last16; assumption.
Qed.

End CommandLineUpDown.

(** As another user, [wg-quick down wg0] becomes [su -p -c wg-quick down
    wg0]. *)
Lemma main_elevates_first_witness :
  Cli.main (Cli.host_of 1000 []) world_plain 1 "wg-quick" ["down"; "wg0"] =
  Cli.Replaced ["su"; "-p"; "-c"; "wg-quick"; "down"; "wg0"]
               (push initial [Stdout ("[$] su -p -c wg-quick" ++ nl)]).
Proof.
  apply (main_elevates_first (Cli.host_of 1000 []) world_plain 1
                             "wg-quick" "down" "wg0").
  - discriminate.
  - right. reflexivity.
Defined.

(** [host_root] has no file for [wg7]. *)
Lemma main_unopenable_witness :
  Cli.main host_root world_plain 1 "wg-quick" ["up"; "wg7"] =
  Cli.Process
    (Ended 2
       (push initial
          [Stderr ("Error: Unable to open configuration file `/data/misc/wireguard/wg7.conf': No such file or directory" ++ nl)])).
Proof.
  apply (main_unopenable host_root world_plain 1 "wg-quick" "up" "wg7" 2).
  - reflexivity.
  - left. reflexivity.
  - vm_compute. reflexivity.
Defined.

(** [/sdcard/wg0.txt] exists and is refused. *)
Lemma parse_options_bad_name_witness :
  Cli.parse_options host_root "/sdcard/wg0.txt" initial =
  Exit 77
    (push initial [Stderr ("Error: The config file must be a valid interface name, followed by .conf" ++ nl)]).
Proof.
  apply (parse_options_bad_name host_root "/sdcard/wg0.txt" initial).
  - intros errno. vm_compute. discriminate.
  - intros x E.
    pose proof (chop_suffix_app ".conf" x ltac:(discriminate)) as C.
    rewrite <- E in C. vm_compute in C. discriminate C.
Defined.

(** The name read from [/sdcard/wg0.conf]. *)
Lemma parse_options_name_sound_witness : Rx.regex_iface "wg0" = true.
Proof.
  eapply (parse_options_name_sound host_root "/sdcard/wg0.conf" "wg0"
            _ _ _ _ initial initial).
  vm_compute. reflexivity.
Defined.

(** [wg0] is read from [/data/misc/wireguard/wg0.conf], which everybody
    can read: the warning is printed and the file is used. *)
Lemma parse_options_by_name_witness :
  Cli.parse_options host_root "wg0" initial =
  Ret ("wg0",
       "[Interface]" ++ nl ++ "PrivateKey = cHJpdmF0ZQ==" ++ nl ++
       "[Peer]" ++ nl ++ "PublicKey = cHVibGlj" ++ nl ++
       "AllowedIPs = 0.0.0.0/0" ++ nl,
       0, "10.0.0.2/24", "1.1.1.1")
      (push initial [Stderr ("Warning: `/data/misc/wireguard/wg0.conf' is world accessible" ++ nl)]).
Proof.
  apply (parse_options_by_name host_root "wg0" wg0_conf 420 initial).
  - reflexivity.
  - vm_compute. lia.
  - reflexivity.
Defined.

Lemma parse_options_by_path_witness :
  Cli.parse_options host_root "/sdcard/wg0.conf" initial =
  Ret ("wg0",
       "[Interface]" ++ nl ++ "PrivateKey = cHJpdmF0ZQ==" ++ nl ++
       "[Peer]" ++ nl ++ "PublicKey = cHVibGlj" ++ nl ++
       "AllowedIPs = 0.0.0.0/0" ++ nl,
       0, "10.0.0.2/24", "1.1.1.1")
      initial.
Proof.
  apply (parse_options_by_path host_root "/sdcard" "wg0" wg0_conf 384 initial).
  - reflexivity.
  - vm_compute. lia.
  - reflexivity.
Defined.

(** [my-very-long-tunnel-name.conf] sets up the interface
    [long-tunnel-name]. *)
Lemma parse_options_long_name_witness :
  Cli.parse_options host_root "/sdcard/my-very-long-tunnel-name.conf" initial =
  Ret ("long-tunnel-name",
       "[Interface]" ++ nl ++ "PrivateKey = cHJpdmF0ZQ==" ++ nl ++
       "[Peer]" ++ nl ++ "PublicKey = cHVibGlj" ++ nl ++
       "AllowedIPs = 0.0.0.0/0" ++ nl,
       0, "10.0.0.2/24", "1.1.1.1")
      initial.
Proof.
  apply (parse_options_long_name host_root "/sdcard/my-very-"
           "long-tunnel-name" wg0_conf 384 initial).
  - reflexivity.
  - reflexivity.
  - discriminate.
  - vm_compute. lia.
  - reflexivity.
Defined.

(* ================================================================== *)
(** * The configuration file: edge cases *)
(* ================================================================== *)

Section LoadingEdges.
Import CStr Config ConfigSpec.

Lemma kinds_without_interface (lines : list string) :
  (forall l, In l lines -> is_interface_header l = false) ->
  body_lines (kinds false lines) = lines /\
  address_values (kinds false lines) = [] /\
  dns_values (kinds false lines) = [] /\
  mtu_value 0 (kinds false lines) = 0%Z.
Proof.
  induction lines as [|l r IH]; intros H; [repeat split|].
  assert (S : section_of false l = false).
  { unfold section_of. rewrite (H l (or_introl eq_refl)).
    destruct (is_header l); reflexivity. }
  destruct IH as [Hb [Ha [Hd Hm]]].
  { intros x Hx. apply H. right. exact Hx. }
  cbn [kinds]. rewrite S. cbn [classify body_lines address_values dns_values
                                mtu_value].
  rewrite Hb. repeat split; assumption.
Qed.

(** X9. A file without a line [[Interface]] gives nothing to the
    descriptor: the MTU is 0, the address and DNS lists are empty, and the
    tunnel configuration is the file itself, whatever [Address=], [DNS=]
    or [MTU=] lines it holds. *)
Theorem parse_options_without_interface (file : string) :
  (forall l, In l (getlines file) -> is_interface_header l = false) ->
  Config.parse_options file = (file, 0%Z, EmptyString, EmptyString).
Proof.
  intros H. unfold Config.parse_options, parse_lines.
  rewrite parse_lines_from. cbv zeta.
  cbn [config mtu addrs dnses empty in_interface_section].
  destruct (kinds_without_interface _ H) as [Hb [Ha [Hd Hm]]].
  rewrite Hb, Ha, Hd, Hm. rewrite !append_all_none.
  rewrite getlines_concat. reflexivity.
Qed.

Lemma map_length (f : ascii -> ascii) (s : string) :
  String.length (CStr.map f s) = String.length s.
Proof. induction s as [|c r IH]; simpl; [reflexivity | now rewrite IH]. Qed.

(** A line whose clean copy is a bare key is of no kind. *)
Lemma bare_key_other (line key : string) (b : bool) :
  CStr.map tolower (clean_of line) = key ->
  key = "address=" \/ key = "dns=" \/ key = "mtu=" ->
  section_of b line = b /\ classify b line = Other.
Proof.
  intros Hc Hk.
  assert (Hlen : String.length (clean_of line) = String.length key)
    by (rewrite <- Hc; symmetry; apply map_length).
  assert (T : forall n, (String.length key <= n)%nat ->
                        CStr.map tolower (take n (clean_of line)) = key).
  { intros n Hn. rewrite take_all by (rewrite Hlen; exact Hn). exact Hc. }
  assert (N : forall k, (String.length key <= String.length k)%nat ->
                        value_of k line = None).
  { intros k Hk'. unfold value_of.
    assert (V : (String.length k <? String.length (clean_of line))%nat = false)
      by (apply Nat.ltb_ge; rewrite Hlen; exact Hk').
    rewrite V, andb_false_r. reflexivity. }
  destruct Hk as [->|[->| ->]].
  - pose proof (T 8%nat ltac:(simpl; lia)) as T8.
    destruct (first_char _ _ _ _ T8) as [c [r [Ec Hfirst]]].
    split; [apply (section_of_plain b line _ _ _ T8); discriminate|].
    unfold classify. destruct b; [|reflexivity].
    rewrite (N "Address=") by (simpl; lia).
    rewrite (value_of_mismatch "D" c "NS=" line r Ec)
      by (rewrite Hfirst; discriminate).
    rewrite (value_of_mismatch "M" c "TU=" line r Ec)
      by (rewrite Hfirst; discriminate).
    reflexivity.
  - pose proof (T 4%nat ltac:(simpl; lia)) as T4.
    destruct (first_char _ _ _ _ T4) as [c [r [Ec Hfirst]]].
    split; [apply (section_of_plain b line _ _ _ T4); discriminate|].
    unfold classify. destruct b; [|reflexivity].
    rewrite (value_of_mismatch "A" c "ddress=" line r Ec)
      by (rewrite Hfirst; discriminate).
    rewrite (N "DNS=") by (simpl; lia).
    rewrite (value_of_mismatch "M" c "TU=" line r Ec)
      by (rewrite Hfirst; discriminate).
    reflexivity.
  - pose proof (T 4%nat ltac:(simpl; lia)) as T4.
    destruct (first_char _ _ _ _ T4) as [c [r [Ec Hfirst]]].
    split; [apply (section_of_plain b line _ _ _ T4); discriminate|].
    unfold classify. destruct b; [|reflexivity].
    rewrite (value_of_mismatch "A" c "ddress=" line r Ec)
      by (rewrite Hfirst; discriminate).
    rewrite (value_of_mismatch "D" c "NS=" line r Ec)
      by (rewrite Hfirst; discriminate).
    rewrite (N "MTU=") by (simpl; lia).
    reflexivity.
Qed.

(** X10. An [Address=], [DNS=] or [MTU=] line without a value is not
    merged, not even in an [Interface] section: it goes to the tunnel
    configuration as it was read, and the descriptor stays as it is. *)
Theorem parse_line_bare_key (o : Config.t) (line : string) :
  (let key := CStr.map tolower (clean_of line) in
   key = "address=" \/ key = "dns=" \/ key = "mtu=") ->
  parse_line o line =
  {| config := concat_and_free (config o) "" line;
     mtu := mtu o; addrs := addrs o; dnses := dnses o;
     in_interface_section := in_interface_section o |}.
Proof.
  cbv zeta. intros Hk.
  destruct (bare_key_other line _ (in_interface_section o) eq_refl Hk)
    as [S C].
  rewrite parse_line_kind. cbv zeta. rewrite S, C. reflexivity.
Qed.

End LoadingEdges.

(** A file whose only section is a peer: its [Address] line stays in the
    tunnel configuration. *)
Lemma parse_options_without_interface_witness :
  Config.parse_options ("[Peer]" ++ nl ++ "Address = 10.0.0.1" ++ nl) =
  ("[Peer]" ++ nl ++ "Address = 10.0.0.1" ++ nl, 0, "", "").
Proof.
  apply (parse_options_without_interface
           ("[Peer]" ++ nl ++ "Address = 10.0.0.1" ++ nl)).
  intros l Hl. vm_compute in Hl.
  destruct Hl as [<-|[<-|[]]]; reflexivity.
Defined.

(** [DNS =] in an [Interface] section. *)
Lemma parse_line_bare_key_witness :
  Config.parse_line (Config.parse_line Config.empty ("[Interface]" ++ nl))
                    ("DNS = " ++ nl) =
  {| Config.config := Some ("[Interface]" ++ nl ++ "DNS = " ++ nl);
     Config.mtu := 0; Config.addrs := None; Config.dnses := None;
     Config.in_interface_section := true |}.
Proof.
  apply (parse_line_bare_key
           (Config.parse_line Config.empty ("[Interface]" ++ nl))
           ("DNS = " ++ nl)).
  right. left. reflexivity.
Defined.

(* ================================================================== *)
(** * Addresses and routes *)
(* ================================================================== *)

Lemma mem_append (c : ascii) (a b : string) :
  CStr.mem c (a ++ b) = CStr.mem c a || CStr.mem c b.
Proof.
  induction a as [|d a IH]; [reflexivity|]. simpl. rewrite IH.
  apply orb_assoc.
Qed.

Lemma no_slash_all (s : string) :
  CStr.has_char s "/" = false -> CStr.all not_slash s = true.
Proof.
  unfold CStr.has_char. induction s as [|c r IH]; [reflexivity|].
  cbn [CStr.mem CStr.all]. intros H.
  apply orb_false_elim in H. destruct H as [Hc Hr].
  unfold not_slash at 1. rewrite Ascii.eqb_sym, Hc. cbn [negb andb].
  apply IH. exact Hr.
Qed.

Lemma take_while_all (p : ascii -> bool) (s : string) :
  CStr.all p s = true -> CStr.take_while p s = s.
Proof.
  induction s as [|c r IH]; [reflexivity|]. simpl. intros H.
  apply andb_prop in H. destruct H as [Hc Hr]. rewrite Hc, IH; auto.
Qed.

Lemma take_while_stop (p : ascii -> bool) (a b : string) (c : ascii) :
  CStr.all p a = true -> p c = false ->
  CStr.take_while p (a ++ String c b) = a /\
  CStr.drop_while p (a ++ String c b) = String c b.
Proof.
  intros Ha Hc. induction a as [|d a IH]; simpl.
  - rewrite Hc. split; reflexivity.
  - simpl in Ha. apply andb_prop in Ha. destruct Ha as [Hd Ha].
    rewrite Hd. destruct (IH Ha) as [-> ->]. split; reflexivity.
Qed.





(** The words [strtok] returns are not empty and hold no delimiter. *)
Lemma strtok_all_words (delims : string) (s : string) :
  Forall (fun t => t <> EmptyString /\
                   CStr.all (CStr.non_delim delims) t = true)
         (CStr.strtok_all delims s).
Proof.
  induction s as [|c r IH]; [constructor|].
  cbn [CStr.strtok_all]. cbv zeta.
  destruct (CStr.mem c delims) eqn:Ec; [exact IH|].
  assert (One : String c "" <> "" /\
                CStr.all (CStr.non_delim delims) (String c "") = true).
  { split; [discriminate|]. simpl. unfold CStr.non_delim. rewrite Ec.
    reflexivity. }
  destruct r as [|c' r']; [constructor; [exact One|constructor]|].
  destruct (CStr.mem c' delims); [constructor; [exact One|exact IH]|].
  destruct (CStr.strtok_all delims (String c' r')) as [|t ts];
    [constructor; [exact One|constructor]|].
  inversion IH as [|? ? [Ht1 Ht2] Hts]; subst.
  constructor; [|exact Hts].
  split; [discriminate|]. simpl. unfold CStr.non_delim at 1. rewrite Ec.
  exact Ht2.
Qed.



Section Addresses.
Variable w : world.

(** An address without a colon takes the IPv4 branch. *)
Lemma add_addr_ipv4 (iface addr : string) (s : pstate) :
  CStr.has_char addr ":" = false ->
  add_addr w iface addr s = cndc w (addr_command iface addr) s.
Proof. intros H. unfold add_addr, addr_command. rewrite H. reflexivity. Qed.


(** X12. Every entry of an address or DNS list that reaches a command
    holds at least one character and none of comma, space, tab, newline,
    quote and backslash: between the quotes the program puts around it, it
    is one word of the shell. *)
Theorem sanitized_words (entries t : string) :
  In t (sanitized entries) ->
  t <> EmptyString /\
  CStr.all (fun c => negb (CStr.mem c list_delims) &&
                     negb (Ascii.eqb c "'") && negb (Ascii.eqb c "\")) t
  = true.
Proof.
  unfold sanitized. intros H. apply filter_In in H. destruct H as [Hin Hq].
  pose proof (strtok_all_words list_delims entries) as W.
  rewrite Forall_forall in W. destruct (W t Hin) as [Hne Hd].
  split; [exact Hne|].
  apply negb_true_iff in Hq. unfold has_quote_or_backslash in Hq.
  apply orb_false_elim in Hq. destruct Hq as [Hq Hb].
  unfold CStr.has_char in Hq, Hb.
  clear Hin Hne W. induction t as [|c r IH]; [reflexivity|].
  cbn [CStr.mem CStr.all] in *.
  apply andb_prop in Hd. destruct Hd as [Hc Hr].
  apply orb_false_elim in Hq. destruct Hq as [Hq1 Hq2].
  apply orb_false_elim in Hb. destruct Hb as [Hb1 Hb2].
  unfold CStr.non_delim in Hc. rewrite Hc.
  rewrite (Ascii.eqb_sym c "'"), Hq1. rewrite (Ascii.eqb_sym c "\"), Hb1.
  cbn [negb andb]. apply IH; assumption.
Qed.

(** X13. An IPv4 address without a prefix length is set with the prefix
    length 32: the one command run is
    [ndc interface setcfg IFACE 'ADDR' 32]. *)
Theorem add_addr_bare_host (iface addr : string) (s : pstate) :
  CStr.has_char addr ":" = false ->
  CStr.has_char addr "/" = false ->
  let c := "interface setcfg " ++ iface ++ " '" ++ addr ++ "' 32" in
  too_long ("ndc " ++ c) = false ->
  ndc_takes w (trace s) c = true ->
  add_addr w iface addr s = Ret tt (push s (ndc_call c)).
Proof.
  intros Hc Hs c Hl Ht. rewrite add_addr_ipv4 by exact Hc.
  unfold addr_command. rewrite Hs.
  rewrite take_while_all by (apply no_slash_all; exact Hs).
  apply cndc_taken; assumption.
Qed.

(** X14. An IPv4 address [HOST/LENGTH] is set as [HOST] with the prefix
    length [atoi(LENGTH)] cut to an [unsigned char]: the one command run is
    [ndc interface setcfg IFACE 'HOST' MASK] with [MASK] the number
    [atoi(LENGTH)] modulo 256, always from 0 to 255.  A length of 256 or
    more, or a negative one, wraps around. *)
Theorem add_addr_prefix (iface host len : string) (s : pstate) :
  CStr.has_char host ":" = false ->
  CStr.has_char host "/" = false ->
  CStr.has_char len ":" = false ->
  let mask := CStr.atoi len mod 256 in
  let c := "interface setcfg " ++ iface ++ " '" ++ host ++ "' " ++
           CStr.fmt_u mask in
  too_long ("ndc " ++ c) = false ->
  ndc_takes w (trace s) c = true ->
  add_addr w iface (host ++ String "/" len) s = Ret tt (push s (ndc_call c))
  /\ 0 <= mask < 256.
Proof.
  intros Hc Hs Hl mask c Hlen Ht. split; [|apply Z.mod_pos_bound; lia].
  assert (C : CStr.has_char (host ++ String "/" len) ":" = false).
  { unfold CStr.has_char in *. rewrite mem_append. simpl. rewrite Hc, Hl.
    reflexivity. }
  assert (S : CStr.has_char (host ++ String "/" len) "/" = true).
  { unfold CStr.has_char. rewrite mem_append. simpl.
    apply orb_true_r. }
  rewrite add_addr_ipv4 by exact C. unfold addr_command. rewrite S.
  destruct (take_while_stop not_slash host len "/" (no_slash_all _ Hs) eq_refl)
    as [-> ->].
  cbn [CStr.drop]. apply cndc_taken; assumption.
Qed.


End Addresses.

(** [1.1.1.1] is kept, [8'8] is not. *)
Lemma sanitized_words_witness :
  "1.1.1.1" <> EmptyString /\
  CStr.all (fun c => negb (CStr.mem c list_delims) &&
                     negb (Ascii.eqb c "'") && negb (Ascii.eqb c "\"))
           "1.1.1.1" = true.
Proof.
  apply (sanitized_words "1.1.1.1, 8'8 ,9.9.9.9" "1.1.1.1").
  vm_compute. left. reflexivity.
Defined.


Lemma add_addr_bare_host_witness :
  add_addr world_plain "wg0" "10.0.0.2" initial =
  Ret tt
    (push initial
       [Stdout ("[#] ndc interface setcfg wg0 '10.0.0.2' 32" ++ nl);
        PopenR "ndc interface setcfg wg0 '10.0.0.2' 32"]).
Proof.
  apply (add_addr_bare_host world_plain "wg0" "10.0.0.2" initial);
    reflexivity.
Defined.

(** A prefix length of 280 is set as 24; one beyond [long] as 255. *)
Lemma add_addr_prefix_witness :
  add_addr world_plain "wg0" "10.0.0.2/280" initial =
  Ret tt
    (push initial
       [Stdout ("[#] ndc interface setcfg wg0 '10.0.0.2' 24" ++ nl);
        PopenR "ndc interface setcfg wg0 '10.0.0.2' 24"])
  /\
  add_addr world_plain "wg0" "10.0.0.2/99999999999999999999" initial =
  Ret tt
    (push initial
       [Stdout ("[#] ndc interface setcfg wg0 '10.0.0.2' 255" ++ nl);
        PopenR "ndc interface setcfg wg0 '10.0.0.2' 255"]).
Proof.
  split.
  - apply (add_addr_prefix world_plain "wg0" "10.0.0.2" "280" initial);
      reflexivity.
  - apply (add_addr_prefix world_plain "wg0" "10.0.0.2"
             "99999999999999999999" initial); reflexivity.
Defined.


(* ================================================================== *)
(** * Route lookups *)
(* ================================================================== *)








Section RouteMtu.
Variable w : world.


End RouteMtu.


(* ================================================================== *)
(** * Endpoints *)
(* ================================================================== *)

Lemma regex_endpoint_cons (c : ascii) (r : string) :
  Rx.regex_endpoint (String c r) =
  endpoint_body (if Ascii.eqb c "[" then r else String c r).
Proof.
  destruct c as [b0 b1 b2 b3 b4 b5 b6 b7].
  destruct b0, b1, b2, b3, b4, b5, b6, b7; reflexivity.
Qed.

Lemma rsplit_some (c0 : ascii) : forall s a d,
  Rx.rsplit c0 s = Some (a, d) -> s = a ++ String c0 d.
Proof.
  induction s as [|c r IH]; intros a d H; [discriminate|].
  cbn [Rx.rsplit] in H.
  destruct (Rx.rsplit c0 r) as [[a' d']|] eqn:E.
  - injection H as <- <-. rewrite (IH a' d' eq_refl). reflexivity.
  - destruct (Ascii.eqb c c0) eqn:Ec; [|discriminate].
    apply Ascii.eqb_eq in Ec. injection H as <- <-. subst. reflexivity.
Qed.

Lemma rsplit_none (c0 : ascii) (s : string) :
  CStr.mem c0 s = false -> Rx.rsplit c0 s = None.
Proof.
  induction s as [|c r IH]; [reflexivity|].
  cbn [CStr.mem Rx.rsplit]. intros H.
  apply orb_false_elim in H. destruct H as [Hc Hr].
  rewrite (IH Hr). rewrite Ascii.eqb_sym, Hc. reflexivity.
Qed.

Lemma rsplit_last (c0 : ascii) (d : string) : forall a,
  CStr.mem c0 d = false ->
  Rx.rsplit c0 (a ++ String c0 d) = Some (a, d).
Proof.
  intros a Hd. induction a as [|c a IH].
  - simpl append. cbn [Rx.rsplit]. rewrite (rsplit_none _ _ Hd).
    rewrite Ascii.eqb_refl. reflexivity.
  - change (String c a ++ String c0 d) with (String c (a ++ String c0 d)).
    cbn [Rx.rsplit]. rewrite IH. reflexivity.
Qed.

Lemma last_char_cons (c : ascii) (r : string) :
  r <> EmptyString -> last_char (String c r) = last_char r.
Proof. destruct r; [congruence | reflexivity]. Qed.

Lemma last_char_app (a : string) (c : ascii) (d : string) :
  last_char (a ++ String c d) = last_char (String c d).
Proof.
  induction a as [|x a IH]; [reflexivity|].
  change (String x a ++ String c d) with (String x (a ++ String c d)).
  rewrite last_char_cons; [exact IH | destruct a; discriminate].
Qed.

Lemma last_char_all (p : ascii -> bool) (s : string) (c : ascii) :
  last_char s = Some c -> CStr.all p s = true -> p c = true.
Proof.
  induction s as [|x r IH]; [discriminate|].
  intros H Hall. cbn [CStr.all] in Hall.
  apply andb_prop in Hall. destruct Hall as [Hx Hr].
  destruct r as [|y r'].
  - injection H as <-. exact Hx.
  - apply IH; [exact H | exact Hr].
Qed.

(** A line that ends with a newline is no endpoint: the pattern wants the
    digits of the port at the very end. *)
Lemma regex_endpoint_newline (l : string) :
  last_char l = Some CStr.newline -> Rx.regex_endpoint l = None.
Proof.
  intros H. destruct l as [|c r]; [discriminate|].
  rewrite regex_endpoint_cons.
  assert (B : forall s1, last_char s1 = Some CStr.newline ->
                         endpoint_body s1 = None).
  { intros s1 H1. unfold endpoint_body.
    destruct (Rx.rsplit ":" s1) as [[a port]|] eqn:E; [|reflexivity].
    apply rsplit_some in E. subst s1. rewrite last_char_app in H1.
    destruct port as [|p0 port']; [discriminate H1|].
    rewrite last_char_cons in H1 by discriminate.
    destruct (CStr.all CStr.isdigit (String p0 port')) eqn:D.
    - pose proof (last_char_all _ _ _ H1 D) as N. discriminate N.
    - rewrite andb_false_r. reflexivity. }
  destruct (Ascii.eqb c "[") eqn:Ec.
  - apply B. destruct r as [|c' r'].
    + apply Ascii.eqb_eq in Ec. subst. discriminate H.
    + rewrite last_char_cons in H by discriminate. exact H.
  - apply B. exact H.
Qed.

Lemma getlines_terminated (s : string) :
  last_char s = Some CStr.newline ->
  Forall (fun l => last_char l = Some CStr.newline) (CStr.getlines s).
Proof.
  induction s as [|c r IH]; intros H; [constructor|].
  cbn [CStr.getlines].
  destruct (Ascii.eqb c CStr.newline) eqn:Ec.
  - apply Ascii.eqb_eq in Ec. subst c.
    constructor; [reflexivity|].
    destruct r as [|c' r']; [constructor|].
    apply IH. rewrite last_char_cons in H by discriminate. exact H.
  - destruct r as [|c' r'].
    + exfalso. injection H as H. subst. rewrite Ascii.eqb_refl in Ec.
      discriminate.
    + rewrite last_char_cons in H by discriminate.
      specialize (IH H).
      destruct (CStr.getlines (String c' r')) as [|l ls] eqn:G.
      * apply getlines_nil in G. discriminate G.
      * inversion IH as [|? ? Hl Hls]; subst. constructor; [|exact Hls].
        rewrite last_char_cons; [exact Hl|]. destruct l; discriminate.
Qed.

Lemma endpoints_of_terminated (lines : list string) :
  Forall (fun l => last_char l = Some CStr.newline) lines ->
  endpoints_of lines = [].
Proof.
  induction 1 as [|l r Hl Hr IH]; [reflexivity|].
  cbn [endpoints_of]. rewrite (regex_endpoint_newline l Hl). exact IH.
Qed.

Section Endpoints.
Variable w : world.

Lemma mtu_fold_none (lines : list string) : forall e s,
  Forall (fun l => Rx.regex_endpoint l = None) lines ->
  fold_m (mtu_step w) lines e s = Ret e s.
Proof.
  induction lines as [|l r IH]; intros e s H; [reflexivity|].
  inversion H as [|? ? Hl Hr]; subst.
  cbn [fold_m]. unfold bind, mtu_step. rewrite Hl. unfold ret at 1.
  apply IH. exact Hr.
Qed.

(** X17. When the output of [wg show endpoints] is empty or ends with a
    newline, so that every line read from it ends with one, no line is
    taken for an endpoint: after the default route and the endpoints, the
    one command run is [ndc interface setmtu] with the MTU of the default
    route (1500 when unknown) minus 80, and no route of a peer is looked
    up.  (Here the command fits the command buffer and ndc takes it.) *)
Theorem set_mtu_terminated_lines (iface : string) (s s1 : pstate) (m0 : Z)
        (status : Z) (output : string) :
  Rx.regex_iface iface = true ->
  get_route_mtu w "default" s = Ret m0 s1 ->
  let show := "wg show " ++ iface ++ " endpoints" in
  let c := "interface setmtu " ++ iface ++ " " ++
           CStr.fmt_d (CStr.to_int ((if m0 =? -1 then 1500 else m0) - 80)) in
  run w (trace s1) show = Spawned status output ->
  output = EmptyString \/ last_char output = Some CStr.newline ->
  too_long ("ndc " ++ c) = false ->
  ndc_takes w (trace s1 ++ [PopenR show]) c = true ->
  set_mtu w iface 0 s = Ret tt (push s1 (PopenR show :: ndc_call c)).
Proof.
  intros Hi H0 show c Hrun Hout Hfit Ht.
  pose proof (regex_iface_length _ Hi) as Hlen.
  unfold set_mtu. cbn [Z.eqb negb].
  unfold bind at 1. rewrite H0.
  unfold bind at 1. fold show.
  rewrite cmd_ret_eq by (unfold show; short_command). rewrite Hrun.
  unfold bind at 1. rewrite mtu_fold_none.
  - fold c. rewrite cndc_taken; [|exact Hfit|exact Ht].
    rewrite push_push. reflexivity.
  - destruct Hout as [->|Hout]; [constructor|].
    apply getlines_terminated in Hout.
    rewrite Forall_forall in *. intros l Hl.
    apply regex_endpoint_newline. apply Hout. exact Hl.
Qed.

End Endpoints.

(** X18. The endpoint pattern takes [HOST:PORT] and [[HOST]:PORT] for the
    host [HOST], for every host made of lower-case letters, digits, colons
    and dots and every port made of digits. *)
Theorem regex_endpoint_strips (host port : string) :
  host <> EmptyString -> CStr.all Rx.endpoint_char host = true ->
  port <> EmptyString -> CStr.all CStr.isdigit port = true ->
  Rx.regex_endpoint (host ++ String ":" port) = Some host /\
  Rx.regex_endpoint (String "[" (host ++ String "]" (String ":" port)))
    = Some host.
Proof.
  intros Hh Hhc Hp Hpc.
  assert (Np : CStr.mem ":" port = false).
  { clear Hp. induction port as [|c r IH]; [reflexivity|].
    cbn [CStr.all CStr.mem] in *. apply andb_prop in Hpc.
    destruct Hpc as [Hc Hr]. rewrite (IH Hr), orb_false_r.
    apply Ascii.eqb_neq. intros <-. discriminate Hc. }
  assert (Chop : forall a, CStr.all Rx.endpoint_char a = true ->
                           Rx.chop_last "]" a = a /\
                           (a <> EmptyString ->
                            Rx.chop_last "]" (a ++ "]") = a)).
  { induction a as [|c r IH]; intros Ha; [split; [reflexivity|congruence]|].
    cbn [CStr.all] in Ha. apply andb_prop in Ha. destruct Ha as [Hc Hr].
    destruct (IH Hr) as [I1 I2].
    assert (Nc : Ascii.eqb c "]" = false)
      by (apply Ascii.eqb_neq; intros ->; discriminate Hc).
    split.
    - cbn [Rx.chop_last]. destruct r; [rewrite Nc; reflexivity|].
      rewrite I1. reflexivity.
    - intros _. change (String c r ++ "]") with (String c (r ++ "]")).
      cbn [Rx.chop_last]. destruct r as [|c' r'].
      + simpl. reflexivity.
      + change (String c' r' ++ "]") with (String c' (r' ++ "]")).
        change (String c' (r' ++ "]")) with (String c' r' ++ "]").
        rewrite I2 by discriminate. reflexivity. }
  assert (Body : forall a, Rx.chop_last "]" a = host ->
                           endpoint_body (a ++ String ":" port) = Some host).
  { intros a Ha. unfold endpoint_body. rewrite (rsplit_last ":" port a Np).
    cbv zeta. rewrite Ha, Hpc, Hhc.
    destruct port; [congruence|]. destruct host; [congruence|]. reflexivity. }
  split.
  - destruct host as [|c r]; [congruence|].
    change (String c r ++ String ":" port) with (String c (r ++ String ":" port)).
    rewrite regex_endpoint_cons.
    assert (Nc : Ascii.eqb c "[" = false).
    { cbn [CStr.all] in Hhc. apply andb_prop in Hhc. destruct Hhc as [Hc _].
      apply Ascii.eqb_neq. intros ->. discriminate Hc. }
    rewrite Nc.
    change (String c (r ++ String ":" port)) with (String c r ++ String ":" port).
    apply Body. apply (proj1 (Chop _ Hhc)).
  - rewrite regex_endpoint_cons. rewrite Ascii.eqb_refl.
    replace (host ++ String "]" (String ":" port))
      with ((host ++ "]") ++ String ":" port)
      by (rewrite append_assoc; reflexivity).
    apply Body. apply (proj2 (Chop _ Hhc)). exact Hh.
Qed.

Lemma regex_endpoint_strips_witness :
  Rx.regex_endpoint "fe80::1:51820" = Some "fe80::1" /\
  Rx.regex_endpoint "[fe80::1]:51820" = Some "fe80::1".
Proof.
  apply (regex_endpoint_strips "fe80::1" "51820");
    (reflexivity || discriminate).
Defined.

(** The peer's route has MTU 1300, but its line ends with a newline (and
    starts with the key): the MTU set is 1500 - 80. *)
Lemma set_mtu_terminated_lines_witness :
  set_mtu world_peer_lines "wg0" 0 initial =
  Ret tt
    (push initial
       [PopenR "ip -o route show default";
        PopenR "wg show wg0 endpoints";
        Stdout ("[#] ndc interface setmtu wg0 1420" ++ nl);
        PopenR "ndc interface setmtu wg0 1420"]).
Proof.
  apply (set_mtu_terminated_lines world_peer_lines "wg0" initial
           (push initial [PopenR "ip -o route show default"]) 1500 0
           ("cHVibGlj" ++ String CStr.tab "192.0.2.7:51820" ++ nl)).
  - reflexivity.
  - vm_compute. reflexivity.
  - reflexivity.
  - right. reflexivity.
  - reflexivity.
  - reflexivity.
Defined.

(* ================================================================== *)
(** * Taking an interface down: failures and the rule pattern *)
(* ================================================================== *)

Section Down.
Variable w : world.

Lemma cmd_down_listed (iface : string) (s : pstate) (status : Z)
      (interfaces : string) :
  run w (trace s) "wg show interfaces" = Spawned status interfaces ->
  In iface (listed_interfaces interfaces) ->
  cmd_down w iface s =
  (del_if w iface ;; exit 0) (push s [PopenR "wg show interfaces"]).
Proof.
  intros Hrun Hin.
  assert (F : match CStr.getlines interfaces with
              | [] => false
              | ifaces :: _ =>
                  existsb (String.eqb iface)
                          (CStr.strtok_all (String " " nl) ifaces)
              end = true).
  { unfold listed_interfaces in Hin.
    destruct (CStr.getlines interfaces); [destruct Hin|].
    apply existsb_exists. exists iface. split; [exact Hin|].
    apply String.eqb_refl. }
  unfold cmd_down. unfold bind at 1.
  rewrite cmd_ret_eq by reflexivity. rewrite Hrun, F. reflexivity.
Qed.

(** X19. When [ip link del] fails on the way down, the process ends with
    the status of that command right away: the rules are not read and no
    network is destroyed. *)
Theorem cmd_down_delete_fails (iface : string) (s : pstate)
        (status r : Z) (interfaces : string) :
  Rx.regex_iface iface = true ->
  is_exiting s = false ->
  atexit_cleanup s = false ->
  let c := "ip link del " ++ iface in
  let s1 := push s [PopenR "wg show interfaces"; Stdout ("[#] " ++ c ++ nl)] in
  run w (trace s) "wg show interfaces" = Spawned status interfaces ->
  In iface (listed_interfaces interfaces) ->
  system_status w (trace s1) c = r ->
  r <> 0 ->
  run_process w (cmd_down w iface) s = Ended r (push s1 [System c]).
Proof.
  intros Hi Hx Ha c s1 Hrun Hin Hr Hne.
  unfold run_process. rewrite (cmd_down_listed iface s status interfaces Hrun Hin).
  unfold bind at 1. rewrite del_if_eq by exact Hi. cbv zeta.
  replace (trace (push s [PopenR "wg show interfaces"]) ++
           [Stdout ("[#] " ++ ("ip link del " ++ iface) ++ nl)])%list
    with (trace s1)
    by (unfold s1; simpl; rewrite <- app_assoc; reflexivity).
  fold c. rewrite Hr. apply Z.eqb_neq in Hne. rewrite Hne.
  simpl is_exiting. rewrite Hx. cbn [negb andb].
  unfold at_exit. simpl atexit_cleanup. rewrite Ha.
  unfold s1. rewrite !push_push. reflexivity.
Qed.

(** X20. When the exit handler deletes the pending interface and finds no
    rule for it, the process ends with the status it was ending with,
    whether [ip link del] succeeds or not. *)
Theorem at_exit_keeps_status (iface : string) (status status' : Z)
        (s : pstate) (rules : string) :
  Rx.regex_iface iface = true ->
  atexit_cleanup s = true ->
  cleanup_iface s = Some iface ->
  let c := "ip link del " ++ iface in
  let s1 := push (unwinding s) [Stdout ("[#] " ++ c ++ nl); System c] in
  run w (trace s1) "ip rule show" = Spawned status' rules ->
  first_rule iface (CStr.getlines rules) = None ->
  at_exit w status s = Ended status (push s1 [PopenR "ip rule show"]).
Proof.
  intros Hi Ha Hc c s1 Hrun Hnone.
  unfold at_exit, cmd_up_cleanup. rewrite Ha.
  unfold bind at 1. unfold set_is_exiting at 1.
  change {| trace := trace s; cleanup_iface := cleanup_iface s;
            is_exiting := true; atexit_cleanup := atexit_cleanup s |}
    with (unwinding s).
  unfold bind at 1. unfold get_cleanup_iface at 1.
  change (cleanup_iface (unwinding s)) with (cleanup_iface s). rewrite Hc.
  rewrite del_if_eq by exact Hi. cbv zeta.
  change (is_exiting (unwinding s)) with true. rewrite andb_false_r.
  fold c. fold s1. rewrite Hrun, Hnone. reflexivity.
Qed.

End Down.

Lemma cmd_down_delete_fails_witness :
  run_process world_stuck (cmd_down world_stuck "wg0") initial =
  Ended 256 (push initial [PopenR "wg show interfaces";
                           Stdout ("[#] ip link del wg0" ++ nl);
                           System "ip link del wg0"]).
Proof.
  apply (cmd_down_delete_fails world_stuck "wg0" initial 0 256 ("wg0" ++ nl)).
  - reflexivity.
  - reflexivity.
  - reflexivity.
  - reflexivity.
  - vm_compute. left. reflexivity.
  - reflexivity.
  - discriminate.
Defined.

(** After a failed [ip link add] in [world_no_module], the status 512 of
    that command is the status of the process. *)
Lemma at_exit_keeps_status_witness :
  at_exit world_no_module 512
    (push (registered "wg0" initial)
          [Stdout ("[#] ip link add wg0 type wireguard" ++ nl);
           System "ip link add wg0 type wireguard"]) =
  Ended 512
    (push (push (unwinding
                   (push (registered "wg0" initial)
                         [Stdout ("[#] ip link add wg0 type wireguard" ++ nl);
                          System "ip link add wg0 type wireguard"]))
                [Stdout ("[#] ip link del wg0" ++ nl);
                 System "ip link del wg0"])
          [PopenR "ip rule show"]).
Proof.
  apply (at_exit_keeps_status world_no_module "wg0" 512 0
           (push (registered "wg0" initial)
                 [Stdout ("[#] ip link add wg0 type wireguard" ++ nl);
                  System "ip link add wg0 type wireguard"])
           EmptyString).
  - reflexivity.
  - reflexivity.
  - reflexivity.
  - reflexivity.
  - reflexivity.
Defined.

(* ================================================================== *)
(** * A signal on the way up *)
(* ================================================================== *)

(** X23. [set_config] writes the configuration to the pipe of
    [wg setconf]; when that write raises a signal ([SIGPIPE], the command
    having gone), the process is ended where it is.  On the way up this
    comes after the interface has been created: [cleanup_iface] names it
    and the exit handler is registered, but no handler runs, and the last
    thing the process has done is the write: no [ip link del] follows. *)
Theorem cmd_up_killed_by_signal (w : world) (fuel : nat)
        (iface config : string) (mtu : Z) (addrs dnses : string)
        (s : pstate) (status status' : Z) (out : string) (signal : Z) :
  Rx.regex_iface iface = true ->
  let add := "ip link add " ++ iface ++ " type wireguard" in
  let setconf := "wg setconf " ++ iface ++ " /proc/self/fd/0" in
  let s1 := push (registered iface s) [Stdout ("[#] " ++ add ++ nl)] in
  let s2 := push s1 [System add; Stdout ("[#] " ++ setconf ++ nl)] in
  run w (trace s) ("ip link show dev " ++ iface ++ " 2>/dev/null")
    = Spawned status EmptyString ->
  system_status w (trace s1) add = 0 ->
  run w (trace s2) setconf = Spawned status' out ->
  write_signal w (trace s2 ++ [PopenW setconf]) setconf config
    = Some signal ->
  run_process w (cmd_up w fuel iface config mtu addrs dnses) s =
  Killed signal (push s2 [PopenW setconf; Fputs setconf config]).
Proof.
  intros Hi add setconf s1 s2 Hprobe Hadd Hrun Hsig.
  pose proof (regex_iface_length _ Hi) as Hlen.
  assert (E : cmd_up w fuel iface config mtu addrs dnses s =
              Kill signal (push s2 [PopenW setconf; Fputs setconf config])).
  { unfold cmd_up. unfold bind at 1.
    rewrite cmd_ret_eq by short_command. rewrite Hprobe.
    change (CStr.getlines "") with (@nil string). cbv iota.
    unfold bind at 1. unfold set_cleanup_iface at 1.
    unfold bind at 1. unfold atexit_cmd_up_cleanup at 1.
    cbn [trace cleanup_iface is_exiting atexit_cleanup push].
    fold (registered iface s).
    unfold bind at 1. unfold cmd_up_work. unfold bind at 1.
    unfold add_if. fold add. rewrite cmd_eq by (unfold add; short_command).
    cbv zeta.
    change (trace (registered iface s) ++ [Stdout ("[#] " ++ add ++ nl)])%list
      with (trace s1).
    rewrite Hadd. cbn [Z.eqb negb andb].
    unfold bind at 1. unfold set_config. fold setconf.
    unfold bind at 1. unfold log at 1.
    unfold bind at 1. unfold get_trace at 1.
    unfold bind at 1. unfold log at 1.
    rewrite !push_push. cbn [app].
    assert (T : push (registered iface s)
                  [Stdout ("[#] " ++ add ++ nl); System add;
                   Stdout ("[#] " ++ setconf ++ nl)] = s2)
      by (unfold s2, s1; rewrite push_push; reflexivity).
    rewrite T. assert (T' :
      push (registered iface s)
        [Stdout ("[#] " ++ add ++ nl); System add;
         Stdout ("[#] " ++ setconf ++ nl); PopenW setconf]
      = push s2 [PopenW setconf])
      by (unfold s2, s1; rewrite !push_push; reflexivity).
    rewrite T'. rewrite Hrun.
    unfold bind at 1. unfold get_trace at 1.
    unfold bind at 1. unfold log at 1.
    change (trace (push s2 [PopenW setconf]))
      with (trace s2 ++ [PopenW setconf])%list.
    rewrite Hsig. unfold kill. rewrite push_push. reflexivity. }
  unfold run_process. rewrite E. reflexivity.
Qed.

(** In [world_sigpipe] the interface [wg0] is created and the write to
    [wg setconf] raises [SIGPIPE]: the process ends there. *)
Lemma cmd_up_killed_by_signal_witness :
  run_process world_sigpipe
    (cmd_up world_sigpipe 1 "wg0" ("[Peer]" ++ nl) 0 "10.0.0.2/24" "")
    initial =
  Killed 13
    {| trace := [PopenR "ip link show dev wg0 2>/dev/null";
                 Stdout ("[#] ip link add wg0 type wireguard" ++ nl);
                 System "ip link add wg0 type wireguard";
                 Stdout ("[#] wg setconf wg0 /proc/self/fd/0" ++ nl);
                 PopenW "wg setconf wg0 /proc/self/fd/0";
                 Fputs "wg setconf wg0 /proc/self/fd/0" ("[Peer]" ++ nl)];
       cleanup_iface := Some "wg0";
       is_exiting := false;
       atexit_cleanup := true |}.
Proof.
  apply (cmd_up_killed_by_signal world_sigpipe 1 "wg0" ("[Peer]" ++ nl) 0
           "10.0.0.2/24" "" initial 0 0 EmptyString 13);
    reflexivity.
Defined.

(* ================================================================== *)
(** * The rule pattern *)
(* ================================================================== *)

Lemma add_chars_plain (s : string) : forall acc,
  plain_name s = true ->
  Rx.add_chars acc s =
  (List.rev (List.map (fun c => (Rx.Lit c, false)) (list_ascii_of_string s))
   ++ acc)%list.
Proof.
  induction s as [|c r IH]; intros acc H; [reflexivity|].
  unfold plain_name in H. cbn [CStr.all] in H.
  apply andb_prop in H. destruct H as [Hc Hr].
  apply negb_true_iff in Hc. apply orb_false_elim in Hc.
  destruct Hc as [Hdot Hplus].
  cbn [Rx.add_chars list_ascii_of_string List.map List.rev].
  unfold Rx.add_char. rewrite Hplus, Hdot.
  rewrite (IH _ Hr). rewrite <- app_assoc. reflexivity.
Qed.

Lemma items_of_plain (s : string) :
  plain_name s = true ->
  Rx.items_of s = List.map (fun c => (Rx.Lit c, false)) (list_ascii_of_string s).
Proof.
  intros H. unfold Rx.items_of. rewrite add_chars_plain by exact H.
  rewrite app_nil_r. apply rev_involutive.
Qed.

Lemma match_items_literal (s after : string) :
  Rx.match_items
    (List.map (fun c => (Rx.Lit c, false)) (list_ascii_of_string s))
    (s ++ after) = true.
Proof.
  induction s as [|c r IH]; [reflexivity|].
  cbn [list_ascii_of_string List.map Rx.match_items append Rx.atom_matches].
  rewrite Ascii.eqb_refl. exact IH.
Qed.

Lemma search_reaches {A : Type} (f : string -> option A) (s : string) (a : A) :
  f s = Some a -> forall x, exists a', Rx.search f (x ++ s) = Some a'.
Proof.
  intros H x. induction x as [|c x IH].
  - exists a. simpl append. destruct s; simpl; rewrite H; reflexivity.
  - change (String c x ++ s) with (String c (x ++ s)). cbn [Rx.search].
    destruct (f (String c (x ++ s))) as [a'|]; [eauto | exact IH].
Qed.

(** X22. The rule pattern of [del_if] does not look at what follows the
    interface name: a rule line that names an interface whose name only
    starts with the given one matches as well.  (For names without ['.']
    and ['+'].) *)
Theorem regex_rule_ignores_tail (iface hex before after : string) :
  plain_name iface = true ->
  hex <> EmptyString ->
  CStr.all CStr.ishex hex = true ->
  let rule := "0xc" ++ hex ++ "/0xcffff lookup " ++ iface ++ after in
  Rx.regex_rule iface rule = Some hex /\
  exists netid, Rx.regex_rule iface (before ++ rule) = Some netid.
Proof.
  intros Hp Hne Hhex rule.
  assert (At : Rx.rule_at iface rule = Some hex).
  { unfold rule, Rx.rule_at.
    change (CStr.strip_prefix "0xc"
              ("0xc" ++ hex ++ "/0xcffff lookup " ++ iface ++ after))
      with (Some (hex ++ String "/" ("0xcffff lookup " ++ iface ++ after))).
    cbv zeta.
    destruct (take_while_stop CStr.ishex hex
                ("0xcffff lookup " ++ iface ++ after) "/" Hhex eq_refl)
      as [-> ->].
    destruct hex as [|h0 hex']; [congruence|]. cbn [CStr.is_empty].
    change (CStr.strip_prefix "/0xcffff lookup"
              (String "/" ("0xcffff lookup " ++ iface ++ after)))
      with (Some (String " " iface ++ after)).
    rewrite items_of_plain by exact Hp.
    rewrite match_items_literal. reflexivity. }
  split.
  - unfold Rx.regex_rule. unfold rule in *.
    change ("0xc" ++ hex ++ "/0xcffff lookup " ++ iface ++ after)
      with (String "0" ("xc" ++ hex ++ "/0xcffff lookup " ++ iface ++ after))
      in *.
    cbn [Rx.search]. rewrite At. reflexivity.
  - apply (search_reaches (Rx.rule_at iface) rule hex At before).
Qed.

(** Taking [wg0] down, the rule of [wg01] is taken for its rule. *)
Lemma regex_rule_ignores_tail_witness :
  Rx.regex_rule "wg0" "0xc1234/0xcffff lookup wg01" = Some "1234" /\
  exists netid,
    Rx.regex_rule "wg0"
      ("13000: from all fwmark " ++ "0xc1234/0xcffff lookup wg01")
    = Some netid.
Proof.
  apply (regex_rule_ignores_tail "wg0" "1234" "13000: from all fwmark " "1");
    (reflexivity || discriminate).
Defined.
